(** * graphene/types/mutation.py: the mutation field builder

    A shallow embedding of [run_validators], [MutationOptions],
    [Mutation.__init_subclass_with_meta__], the resolver closure it
    generates, and [Mutation.Field], followed by the properties of the
    builder and of the generated resolver. *)

From Stdlib Require Import List String Ascii Bool ZArith Lia.
#[local] Set Warnings "-register-all".
Import ListNotations.
Local Open Scope string_scope.
Local Open Scope list_scope.

(** ** Python values *)

(** The objects the builder and the resolver look at.  A class carries its
    [__name__], the text [str()] renders for it, its [__mro__] (itself
    first, every entry with the qualified name of the class and its
    [__dict__]) and its [_meta]: the field dict on it, or nothing when
    [_meta] is [None], as it is on [Interface] itself and on an abstract
    class. *)
Inductive value : Type :=
| VNone
| VBool (b : bool)
| VInt (n : Z)
| VStr (s : string)
| VList (items : list value)
| VDict (items : list (string * value))
| VFunc (id : nat)
| VObj (attrs : list (string * value))
| VClass (c : klass)
with klass : Type :=
| Klass (name : string) (str : string)
        (mro : list (string * list (string * value)))
        (meta : option (list (string * value))).

(** A dict with string keys, in insertion order. *)
Definition dict : Type := list (string * value).

Definition k_name (c : klass) : string :=
  match c with Klass n _ _ _ => n end.
Definition k_str (c : klass) : string :=
  match c with Klass _ s _ _ => s end.
Definition k_mro (c : klass) : list (string * dict) :=
  match c with Klass _ _ m _ => m end.
Definition k_meta (c : klass) : option dict :=
  match c with Klass _ _ _ f => f end.
Definition k_meta_fields (c : klass) : dict :=
  match k_meta c with Some fields => fields | None => [] end.

(** [bool(v)]: [None], [False], zero and empty containers are falsy;
    functions, plain instances and classes are truthy. *)
Definition truthy (v : value) : bool :=
  match v with
  | VNone => false
  | VBool b => b
  | VInt n => negb (Z.eqb n 0)
  | VStr s => negb (String.eqb s EmptyString)
  | VList l => match l with [] => false | _ => true end
  | VDict d => match d with [] => false | _ => true end
  | VFunc _ | VObj _ | VClass _ => true
  end.

(** [a or b] *)
Definition py_or (a b : value) : value := if truthy a then a else b.

(** ** Dicts *)

(** [d.get(k)] *)
Fixpoint dict_get (d : dict) (k : string) : option value :=
  match d with
  | [] => None
  | (k', v) :: d' => if String.eqb k' k then Some v else dict_get d' k
  end.

(** [d[k] = v]: an existing key keeps its position. *)
Fixpoint dict_set (d : dict) (k : string) (v : value) : dict :=
  match d with
  | [] => [(k, v)]
  | (k', v') :: d' =>
      if String.eqb k' k then (k, v) :: d' else (k', v') :: dict_set d' k v
  end.

(** [d.update(other)] *)
Definition dict_update (d other : dict) : dict :=
  fold_left (fun acc kv => dict_set acc (fst kv) (snd kv)) other d.

(** [d.keys()] *)
Definition dict_keys (d : dict) : list string := map fst d.

(** The binding an item list gives a key when it is read as a dict: a later
    item overrides an earlier one.  On a list without repeated keys this is
    [dict_get]. *)
Fixpoint dict_get_last (d : dict) (k : string) : option value :=
  match d with
  | [] => None
  | (k', v) :: d' =>
      match dict_get_last d' k with
      | Some w => Some w
      | None => if String.eqb k' k then Some v else None
      end
  end.

(** [bool(d)] for an optional dict: [None] and [{}] are falsy. *)
Definition dict_truthy (d : option dict) : bool :=
  match d with
  | Some (_ :: _) => true
  | _ => false
  end.

(** ** Attribute access *)

(** Lookup of a name through the [__dict__]s of an [__mro__]. *)
Fixpoint mro_lookup (mro : list (string * dict)) (name : string)
  : option value :=
  match mro with
  | [] => None
  | (_, d) :: bases =>
      match dict_get d name with
      | Some v => Some v
      | None => mro_lookup bases name
      end
  end.

(** [getattr(cls, name, None)] *)
Definition getattr (cls : klass) (name : string) : value :=
  match mro_lookup (k_mro cls) name with
  | Some v => v
  | None => VNone
  end.

(** The attribute a value answers with for a name the built-in types do not
    define, as [validate_<key>] is: an instance looks in its attributes, a
    class through its [__mro__]. *)
Definition attribute (v : value) (name : string) : option value :=
  match v with
  | VObj attrs => dict_get attrs name
  | VClass c => mro_lookup (k_mro c) name
  | _ => None
  end.

(** [hasattr(v, name)] *)
Definition hasattr (v : value) (name : string) : bool :=
  match attribute v name with
  | Some _ => true
  | None => false
  end.

(** ** Exceptions and outcomes *)

Inductive exn : Type :=
| AssertionError (msg : string)
| TypeError (msg : string)
| KeyError (key : string)
| AttributeError (msg : string)
| UserError (tag : string).

Inductive result (A : Type) : Type :=
| Ok (a : A)
| Raise (e : exn).
Arguments Ok {A} a.
Arguments Raise {A} e.

Definition dquote : string := String (ascii_of_nat 34) EmptyString.
Definition newline : string := String (ascii_of_nat 10) EmptyString.

(** ** The options of a mutation *)

(** What [_meta.resolver] holds: nothing, the resolver the definition
    supplied, or the closure of lines 130-132 with the two variables it
    captures. *)
Inductive resolver_fn : Type :=
| NoResolver
| UserResolver (f : value)
| ValidatingResolver (arguments : dict) (mutate : value).

(** [MutationOptions] (lines 27-31), with the [name], [description] and
    [fields] it inherits from the option classes above it. *)
Record MutationOptions : Type := {
  meta_name : value;
  meta_description : value;
  meta_fields : option dict;
  meta_interfaces : list value;
  meta_arguments : option dict;
  meta_output : value;
  meta_resolver : resolver_fn
}.

(** [MutationOptions(cls)]: every option at its class-level default. *)
Definition new_MutationOptions : MutationOptions :=
  {| meta_name := VNone;
     meta_description := VNone;
     meta_fields := None;
     meta_interfaces := [];
     meta_arguments := None;
     meta_output := VNone;
     meta_resolver := NoResolver |}.

(** ** The surrounding library and user code *)

(** What mutation.py imports or is handed and does not define: how a user
    object answers a call (it may change the world and may raise),
    [get_unbound_function], [props], [yank_fields_from_attrs] (called
    with [_as=Field]), and the hook of the parent class that line 144
    calls with the class, the [_meta] built and the remaining [**options]:
    it returns the [_meta] the finished class carries, or raises. *)
Class Host : Type := {
  World : Type;
  call : value -> list value -> dict -> World -> World * result value;
  get_unbound_function : value -> value;
  props : value -> dict;
  yank_fields_from_attrs : dict -> dict;
  parent_init_subclass_with_meta :
    klass -> MutationOptions -> dict -> result MutationOptions
}.

(** ** Resolver-time computations *)

(** A call made while a resolver runs, in the order made. *)
Inductive event : Type :=
| EValidator (f : value) (arg : value)
| EMutate (f : value) (args : list value) (kwargs : dict)
| EResolver (f : value) (args : list value) (kwargs : dict).

Definition is_mutate (e : event) : bool :=
  match e with EMutate _ _ _ => true | _ => false end.

Section Runtime.
Context {H : Host}.

(** A computation reads the world, logs the calls it makes and either
    returns or raises. *)
Definition M (A : Type) : Type := World -> list event * World * result A.

Definition ret {A} (a : A) : M A := fun w => ([], w, Ok a).
Definition raise {A} (e : exn) : M A := fun w => ([], w, Raise e).
Definition bind {A B} (m : M A) (k : A -> M B) : M B :=
  fun w =>
    match m w with
    | (tr, w', Ok a) =>
        match k a w' with (tr', w'', r) => (tr ++ tr', w'', r) end
    | (tr, w', Raise e) => (tr, w', Raise e)
    end.

Definition lift {A} (r : result A) : M A := fun w => ([], w, r).

(** [for x in xs: body(x)] *)
Fixpoint for_each {A} (xs : list A) (body : A -> M unit) : M unit :=
  match xs with
  | [] => ret tt
  | x :: xs' => bind (body x) (fun _ => for_each xs' body)
  end.

(** Calling a user object, logged as [ev]. *)
Definition invoke (ev : event) (f : value) (args : list value) (kwargs : dict)
  : M value :=
  fun w => match call f args kwargs w with (w', r) => ([ev], w', r) end.

(** [kwargs[name]] *)
Definition subscript (d : dict) (k : string) : result value :=
  match dict_get d k with
  | Some v => Ok v
  | None => Raise (KeyError k)
  end.

(** [v.keys()]: only a dict has it. *)
Definition keys_of (v : value) : result (list string) :=
  match v with
  | VDict d => Ok (dict_keys d)
  | _ => Raise (AttributeError "keys")
  end.

(** [v[k]] for [k] taken from [v.keys()]. *)
Definition item_of (v : value) (k : string) : result value :=
  match v with
  | VDict d => subscript d k
  | _ => Raise (TypeError "object is not subscriptable")
  end.

(** [argument.__getattribute__(name)]: on an instance the bound
    [object.__getattribute__]; on a class the unbound slot, which then
    receives the name as [self] and no name at all. *)
Definition getattribute (argument : value) (name : string) : result value :=
  match argument with
  | VObj attrs =>
      match dict_get attrs name with
      | Some v => Ok v
      | None => Raise (AttributeError name)
      end
  | VClass _ => Raise (TypeError "expected 1 argument, got 0")
  | _ => Raise (AttributeError name)
  end.

(** Body of the inner loop of [run_validators] (lines 21-24). *)
Definition validate_input (argument arg_value : value) (arg_input_name : string)
  : M unit :=
  let validator_function_name := ("validate_" ++ arg_input_name)%string in
  if hasattr argument validator_function_name then
    bind (lift (getattribute argument validator_function_name))
      (fun validator_function =>
    bind (lift (item_of arg_value arg_input_name)) (fun x =>
    bind (invoke (EValidator validator_function x) validator_function [x] [])
      (fun _ => ret tt)))
  else ret tt.

(** Body of the outer loop of [run_validators] (lines 18-24). *)
Definition validate_argument (kwargs : dict) (entry : string * value)
  : M unit :=
  let argument_name := fst entry in
  let argument := snd entry in
  bind (lift (subscript kwargs argument_name)) (fun arg_value =>
  bind (lift (keys_of arg_value)) (fun names =>
  for_each names (validate_input argument arg_value))).

(** [run_validators(arguments, *args, **kwargs)].  The first parameter is
    bound positionally, so a payload that itself has a key [arguments]
    cannot be passed on as keywords. *)
Definition run_validators (arguments : dict) (args : list value) (kwargs : dict)
  : M unit :=
  match dict_get kwargs "arguments" with
  | Some _ =>
      raise (TypeError "run_validators() got multiple values for argument 'arguments'")
  | None => for_each arguments (validate_argument kwargs)
  end.

(** The closure of lines 130-132, over [arguments] and [mutate]. *)
Definition resolver (arguments : dict) (mutate : value)
           (args : list value) (kwargs : dict) : M value :=
  bind (run_validators arguments args kwargs) (fun _ =>
  let f := get_unbound_function mutate in
  invoke (EMutate f args kwargs) f args kwargs).

End Runtime.

(** ** Construction-time definitions *)

(** The class [Interface], as an entry of an [__mro__]. *)
Definition Interface : string := "graphene.types.interface.Interface".

(** [issubclass(c, Interface)] for a class [c]. *)
Definition is_interface (c : klass) : bool :=
  existsb (fun base => String.eqb (fst base) Interface) (k_mro c).

(** The message of the assertion of lines 95-97. *)
Definition interface_message (cls_name received : string) : string :=
  ("All interfaces of " ++ cls_name
   ++ " must be a subclass of Interface. Received " ++ dquote ++ received
   ++ dquote ++ ".")%string.

(** The message of the assertion of line 128. *)
Definition mutate_message : string :=
  "All mutations must define a mutate method in it".

(** The text handed to [warn_deprecation] (lines 113-118). *)
Definition deprecation_message (name : string) : string :=
  ("Please use " ++ name ++ ".Arguments instead of " ++ name ++ ".Input."
   ++ " Input is now only used in ClientMutationID." ++ newline
   ++ "Read more:"
   ++ " https://github.com/graphql-python/graphene/blob/v2.0.0/UPGRADE-v2.0.md#mutation-input")%string.

(** The loop of lines 94-98, from the dict [fields] built so far.
    [issubclass] itself raises when its first argument is not a class, and
    [interface._meta.fields] raises when the [_meta] of the class is
    [None]. *)
Fixpoint merge_interfaces (cls : klass) (interfaces : list value) (fields : dict)
  : result dict :=
  match interfaces with
  | [] => Ok fields
  | interface :: rest =>
      match interface with
      | VClass c =>
          if is_interface c
          then
            match k_meta c with
            | Some interface_fields =>
                merge_interfaces cls rest (dict_update fields interface_fields)
            | None =>
                Raise (AttributeError
                         "'NoneType' object has no attribute 'fields'")
            end
          else Raise (AssertionError (interface_message (k_name cls) (k_str c)))
      | _ => Raise (TypeError "issubclass() arg 1 must be a class")
      end
  end.

(** [if _meta.fields: _meta.fields.update(fields) else: _meta.fields = fields]
    (lines 134-137). *)
Definition store_fields (old : option dict) (fields : dict) : dict :=
  match old with
  | Some (item :: items) => dict_update (item :: items) fields
  | _ => fields
  end.

Section Construction.
Context {H : Host}.

(** The loop of lines 102-104: [reversed(cls.__mro__)], each base's
    [__dict__] yanked and merged in. *)
Definition collect_fields (cls : klass) : dict :=
  fold_left
    (fun fields base => dict_update fields (yank_fields_from_attrs (snd base)))
    (rev (k_mro cls)) [].

(** Lines 107-124: the warnings emitted and the arguments settled on. *)
Definition resolve_arguments (cls : klass) (arguments : option dict)
  : list string * dict :=
  match arguments with
  | Some (item :: items) => ([], item :: items)
  | _ =>
      let input_class := getattr cls "Arguments" in
      let '(warnings, input_class) :=
        if truthy input_class then ([], input_class)
        else
          let input_class := getattr cls "Input" in
          if truthy input_class
          then ([deprecation_message (k_name cls)], input_class)
          else ([], input_class) in
      if truthy input_class then (warnings, props input_class)
      else (warnings, [])
  end.

(** Lines 126-132. *)
Definition resolve_resolver (cls : klass) (resolver : value) (arguments : dict)
  : result resolver_fn :=
  if truthy resolver then Ok (UserResolver resolver)
  else
    let mutate := getattr cls "mutate" in
    if truthy mutate then Ok (ValidatingResolver arguments mutate)
    else Raise (AssertionError mutate_message).

(** Lines 88-142 of [Mutation.__init_subclass_with_meta__], all that comes
    before the call of the parent hook: the warnings emitted, and the
    [_meta] built for the parent or the exception raised. *)
Definition init_subclass_with_meta
           (cls : klass) (interfaces : list value) (resolver output : value)
           (arguments : option dict) (_meta : option MutationOptions)
  : list string * result MutationOptions :=
  let _meta := match _meta with Some m => m | None => new_MutationOptions end in
  let output := py_or output (getattr cls "Output") in
  match merge_interfaces cls interfaces [] with
  | Raise e => ([], Raise e)
  | Ok fields =>
      let '(fields, output) :=
        if truthy output then (fields, output)
        else (collect_fields cls, VClass cls) in
      let '(warnings, arguments) := resolve_arguments cls arguments in
      match resolve_resolver cls resolver arguments with
      | Raise e => (warnings, Raise e)
      | Ok resolver =>
          (warnings,
           Ok {| meta_name := meta_name _meta;
                 meta_description := meta_description _meta;
                 meta_fields := Some (store_fields (meta_fields _meta) fields);
                 meta_interfaces := interfaces;
                 meta_arguments := Some arguments;
                 meta_output := output;
                 meta_resolver := resolver |})
      end
  end.

(** [Mutation.__init_subclass_with_meta__] as a whole (lines 79-144): lines
    88-142, then the hook of the parent class on the [_meta] built and on
    [**options].  [interfaces] is bound by the named parameter, so the
    parent is not handed it, and the [_meta] the parent returns is the one
    the finished class carries. *)
Definition Mutation_init_subclass_with_meta
           (cls : klass) (interfaces : list value) (resolver output : value)
           (arguments : option dict) (_meta : option MutationOptions)
           (options : dict)
  : list string * result MutationOptions :=
  match init_subclass_with_meta cls interfaces resolver output arguments _meta with
  | (warnings, Ok built) =>
      (warnings, parent_init_subclass_with_meta cls built options)
  | (warnings, Raise e) => (warnings, Raise e)
  end.

(** The arguments [Mutation.Field] hands to the [Field] constructor. *)
Record FieldDescriptor : Type := {
  fd_type : value;
  fd_args : option dict;
  fd_resolver : resolver_fn;
  fd_name : value;
  fd_description : value;
  fd_deprecation_reason : value;
  fd_required : value
}.

(** [Mutation.Field] (lines 146-159), on the [_meta] of the class. *)
Definition Field (_meta : MutationOptions)
           (name description deprecation_reason required : value)
  : FieldDescriptor :=
  {| fd_type := meta_output _meta;
     fd_args := meta_arguments _meta;
     fd_resolver := meta_resolver _meta;
     fd_name := name;
     fd_description := py_or description (meta_description _meta);
     fd_deprecation_reason := deprecation_reason;
     fd_required := required |}.

(** Invoking the resolver of a field with [*args] and [**kwargs]. *)
Definition call_resolver (r : resolver_fn) (args : list value) (kwargs : dict)
  : M value :=
  match r with
  | ValidatingResolver arguments mutate => resolver arguments mutate args kwargs
  | UserResolver f => invoke (EResolver f args kwargs) f args kwargs
  | NoResolver => raise (TypeError "'NoneType' object is not callable")
  end.

End Construction.

(** ** The validator calls the specification describes *)

(** For one declared argument and the value the payload gives it: for every
    sub-key of the value, the validator [validate_<subkey>] of the argument
    object, when it has one, applied to the sub-value. *)
Definition expected_calls_of (argument arg_value : value) : list event :=
  match arg_value with
  | VDict d =>
      flat_map
        (fun k =>
           match attribute argument ("validate_" ++ k)%string, dict_get d k with
           | Some f, Some x => [EValidator f x]
           | _, _ => []
           end)
        (dict_keys d)
  | _ => []
  end.

(** The same over every declared argument name present in the payload. *)
Definition expected_validator_calls (arguments kwargs : dict) : list event :=
  flat_map
    (fun entry =>
       match dict_get kwargs (fst entry) with
       | Some arg_value => expected_calls_of (snd entry) arg_value
       | None => []
       end)
    arguments.

(** The field the classes of an [__mro__] declare under a name: the one of
    the most derived class that declares it. *)
Definition declared_field {H : Host} (mro : list (string * dict)) (k : string)
  : option value :=
  fold_right
    (fun base inherited =>
       match dict_get_last (yank_fields_from_attrs (snd base)) k with
       | Some v => Some v
       | None => inherited
       end)
    None mro.

(** A declared argument the resolver cannot read from the payload: its name
    is absent, or its value has no [keys()]. *)
Definition unreadable (kwargs : dict) (name : string) : bool :=
  match dict_get kwargs name with
  | Some (VDict _) => false
  | _ => true
  end.

(** An entry of [interfaces] the loop of lines 94-98 gets past: a subclass
    of [Interface] whose [_meta] is there. *)
Definition completes_interface_loop (v : value) : bool :=
  match v with
  | VClass c =>
      is_interface c && match k_meta c with Some _ => true | None => false end
  | _ => false
  end.

(** The exception the loop raises on an entry it does not get past. *)
Definition interface_error (cls : klass) (v : value) : exn :=
  match v with
  | VClass c =>
      if is_interface c
      then AttributeError "'NoneType' object has no attribute 'fields'"
      else AssertionError (interface_message (k_name cls) (k_str c))
  | _ => TypeError "issubclass() arg 1 must be a class"
  end.

(** What the hooks of the object types do with the [_meta] they are handed,
    as far as the properties below rely on it: the fields scraped from the
    classes of the [__mro__] are merged into [_meta.fields] as in lines
    134-137, and output, arguments, resolver and interfaces are left as
    they are. *)
Definition parent_updates_fields {H : Host} : Prop :=
  forall cls built options finished,
    parent_init_subclass_with_meta cls built options = Ok finished ->
    meta_fields finished
    = Some (store_fields (meta_fields built) (collect_fields cls)) /\
    meta_output finished = meta_output built /\
    meta_arguments finished = meta_arguments built /\
    meta_resolver finished = meta_resolver built /\
    meta_interfaces finished = meta_interfaces built.

(** An entry of [interfaces] that passes the check of line 95. *)
Definition is_interface_value (v : value) : bool :=
  match v with
  | VClass c => is_interface c
  | _ => false
  end.

(** The [fields] of the [_meta] a definition is handed, if any. *)
Definition prior_fields (_meta : option MutationOptions) : option dict :=
  match _meta with
  | Some m => meta_fields m
  | None => None
  end.

(** The keys of an optional dict. *)
Definition option_keys (d : option dict) : list string :=
  match d with
  | Some items => dict_keys items
  | None => []
  end.

(** The calls logged by a run, and how it ended. *)
Definition trace_of {W A : Type} (run : list event * W * result A) : list event :=
  fst (fst run).
Definition outcome_of {W A : Type} (run : list event * W * result A) : result A :=
  snd run.

(** The error line 19 or line 20 raises on an unreadable argument. *)
Definition unreadable_error (kwargs : dict) (name : string) : exn :=
  match dict_get kwargs name with
  | None => KeyError name
  | Some _ => AttributeError "keys"
  end.

(** ** A small host and the definitions used as running examples *)

(** Function objects of the examples: 0 is a [mutate] returning a payload,
    1 a validator that accepts, 2 a validator that rejects.  The world
    counts the calls made. *)
Definition example_call (f : value) (args : list value) (kwargs : dict) (w : nat)
  : nat * result value :=
  match f with
  | VFunc 0 => (S w, Ok (VObj [("ok", VBool true)]))
  | VFunc 1 => (S w, Ok VNone)
  | VFunc 2 => (S w, Raise (UserError "ValueError"))
  | _ => (w, Raise (TypeError "object is not callable"))
  end.

(** Every attribute declared in the class body. *)
Definition example_props (v : value) : dict :=
  match v with
  | VClass (Klass _ _ ((_, d) :: _) _) => d
  | _ => []
  end.

(** The attributes that are instances (mounted or unmounted types);
    functions and inner classes are not fields. *)
Definition example_yank (attrs : dict) : dict :=
  filter (fun kv => match snd kv with VObj _ => true | _ => false end) attrs.

(** A parent hook for the examples.  It merges the fields scraped from the
    classes of the [__mro__] into [_meta.fields], sets the name to the
    [name] option or else the name of the class and the description to
    the [description] option or else the docstring of the class, and
    accepts every definition. *)
Definition example_parent (cls : klass) (_meta : MutationOptions) (options : dict)
  : result MutationOptions :=
  let scraped :=
    fold_left
      (fun fields base => dict_update fields (example_yank (snd base)))
      (rev (k_mro cls)) [] in
  let option_or_none := fun k =>
    match dict_get options k with Some v => v | None => VNone end in
  let own_doc :=
    match k_mro cls with
    | (_, d) :: _ => match dict_get d "__doc__" with Some v => v | None => VNone end
    | [] => VNone
    end in
  Ok {| meta_name := py_or (option_or_none "name") (VStr (k_name cls));
        meta_description := py_or (option_or_none "description") own_doc;
        meta_fields := Some (store_fields (meta_fields _meta) scraped);
        meta_interfaces := meta_interfaces _meta;
        meta_arguments := meta_arguments _meta;
        meta_output := meta_output _meta;
        meta_resolver := meta_resolver _meta |}.

#[export] Instance example_host : Host :=
  {| World := nat;
     call := example_call;
     get_unbound_function := fun f => f;
     props := example_props;
     yank_fields_from_attrs := example_yank;
     parent_init_subclass_with_meta := example_parent |}.

Definition String_ : value := VObj [("type", VStr "String")].
Definition Boolean_ : value := VObj [("type", VStr "Boolean")].
Definition ID_ : value := VObj [("type", VStr "ID")].
Definition Person_field : value := VObj [("type", VStr "Person")].

Definition Mutation_bases : list (string * dict) :=
  [("graphene.types.mutation.Mutation", [("Field", VFunc 10)]);
   ("graphene.types.objecttype.ObjectType", []);
   ("object", [])].

(** The [CreatePerson] of the docstring (lines 45-55). *)
Definition CreatePerson_Arguments : klass :=
  Klass "Arguments" "<class 'Arguments'>"
        [("Arguments", [("name", String_)]); ("object", [])] None.

Definition CreatePerson : klass :=
  Klass "CreatePerson" "CreatePerson"
        (("CreatePerson",
          [("Arguments", VClass CreatePerson_Arguments);
           ("ok", Boolean_);
           ("person", Person_field);
           ("mutate", VFunc 0)]) :: Mutation_bases) None.

(** An interface with one field, and a class that is not an interface. *)
Definition Node : klass :=
  Klass "Node" "Node"
        [("Node", [("id", ID_)]); (Interface, []); ("object", [])]
        (Some [("id", ID_)]).

(** An abstract interface: a subclass of [Interface] whose [_meta] is
    [None]. *)
Definition AbstractNode : klass :=
  Klass "AbstractNode" "AbstractNode"
        [("AbstractNode", [("id", ID_)]); (Interface, []); ("object", [])]
        None.

Definition NotAnInterface : klass :=
  Klass "Person" "Person"
        [("Person", [("name", String_)]);
         ("graphene.types.objecttype.ObjectType", []); ("object", [])]
        (Some [("name", String_)]).

(** [CreatePerson] with [Meta.interfaces = (Node,)] is the same class body;
    the interfaces reach the hook as its keyword. *)

(** An input object whose definition validates [email], and one whose
    validator for [email] rejects. *)
Definition UserInput : value :=
  VObj [("validate_email", VFunc 1)].
Definition StrictInput : value :=
  VObj [("validate_email", VFunc 2); ("validate_age", VFunc 1)].

(** A mutation with the legacy [Input] class, one with both declarations,
    one with neither and no [mutate]. *)
Definition Legacy_Input : klass :=
  Klass "Input" "<class 'Input'>"
        [("Input", [("user", UserInput)]); ("object", [])] None.

Definition LegacyMutation : klass :=
  Klass "LegacyMutation" "LegacyMutation"
        (("LegacyMutation",
          [("Input", VClass Legacy_Input); ("ok", Boolean_);
           ("mutate", VFunc 0)]) :: Mutation_bases) None.

Definition BothMutation : klass :=
  Klass "BothMutation" "BothMutation"
        (("BothMutation",
          [("Arguments", VClass CreatePerson_Arguments);
           ("Input", VClass Legacy_Input); ("ok", Boolean_);
           ("mutate", VFunc 0)]) :: Mutation_bases) None.

Definition BareMutation : klass :=
  Klass "BareMutation" "BareMutation"
        (("BareMutation", [("ok", Boolean_)]) :: Mutation_bases) None.

(** A mutation deriving from [CreatePerson] that redeclares [ok], and one
    with an [Output] inner class. *)
Definition DerivedMutation : klass :=
  Klass "DerivedMutation" "DerivedMutation"
        (("DerivedMutation", [("ok", ID_)]) :: k_mro CreatePerson) None.

Definition Payload : klass :=
  Klass "Payload" "Payload"
        [("Payload", [("ok", Boolean_)]);
         ("graphene.types.objecttype.ObjectType", []); ("object", [])]
        (Some [("ok", Boolean_)]).

Definition OutputMutation : klass :=
  Klass "OutputMutation" "OutputMutation"
        (("OutputMutation",
          [("Output", VClass Payload); ("extra", Boolean_);
           ("mutate", VFunc 0)]) :: Mutation_bases) None.

(** ** Further definitions used by the properties of the builder *)

(** The field a list of interfaces gives a name after the loop of lines
    94-98: the one of the last interface that has it. *)
Fixpoint last_interface_field (interfaces : list value) (k : string)
  : option value :=
  match interfaces with
  | [] => None
  | interface :: rest =>
      match last_interface_field rest k with
      | Some v => Some v
      | None =>
          match interface with
          | VClass c => dict_get_last (k_meta_fields c) k
          | _ => None
          end
      end
  end.

(** [d.get(k)] on an optional dict. *)
Definition option_get (d : option dict) (k : string) : option value :=
  match d with
  | Some items => dict_get items k
  | None => None
  end.

(** A second interface, which also has a field [id], and an input object
    without validators. *)
Definition DateTime_ : value := VObj [("type", VStr "DateTime")].

Definition Timestamped : klass :=
  Klass "Timestamped" "Timestamped"
        [("Timestamped", [("id", DateTime_); ("created", DateTime_)]);
         (Interface, []); ("object", [])]
        (Some [("id", DateTime_); ("created", DateTime_)]).

Definition PlainInput : value := VObj [("type", VStr "PersonInput")].

(** A [_meta] handed in with a name and two fields already on it. *)
Definition given_meta : MutationOptions :=
  {| meta_name := VStr "Payload";
     meta_description := VStr "given";
     meta_fields := Some [("ok", ID_); ("clientMutationId", String_)];
     meta_interfaces := [];
     meta_arguments := None;
     meta_output := VNone;
     meta_resolver := NoResolver |}.

(** * Properties *)

(** ** Dicts *)

Section DictFacts.

Lemma dict_get_set (d : dict) (k k' : string) (v : value) :
  dict_get (dict_set d k v) k' =
  if String.eqb k k' then Some v else dict_get d k'.
Proof.
  induction d as [|[k0 v0] d IH]; simpl.
  - reflexivity.
  - destruct (String.eqb k0 k) eqn:E0; simpl.
    + apply String.eqb_eq in E0; subst k0.
      destruct (String.eqb k k'); reflexivity.
    + destruct (String.eqb k0 k') eqn:E1.
      * apply String.eqb_eq in E1; subst k0.
        rewrite String.eqb_sym, E0. reflexivity.
      * exact IH.
Qed.

Lemma dict_update_snoc (d other : dict) (k : string) (v : value) :
  dict_update d (other ++ [(k, v)]) = dict_set (dict_update d other) k v.
Proof. unfold dict_update. rewrite fold_left_app. reflexivity. Qed.

Lemma dict_get_last_app (d1 d2 : dict) (k : string) :
  dict_get_last (d1 ++ d2) k =
  match dict_get_last d2 k with
  | Some v => Some v
  | None => dict_get_last d1 k
  end.
Proof.
  induction d1 as [|[k0 v0] d1 IH]; simpl.
  - destruct (dict_get_last d2 k); reflexivity.
  - rewrite IH. destruct (dict_get_last d2 k); reflexivity.
Qed.

(** Reading a dict after [update]: the other dict's binding when it has one,
    the old one otherwise. *)
Lemma dict_get_update (d other : dict) (k : string) :
  dict_get (dict_update d other) k =
  match dict_get_last other k with
  | Some v => Some v
  | None => dict_get d k
  end.
Proof.
  induction other as [|[k0 v0] other IH] using rev_ind.
  - reflexivity.
  - rewrite dict_update_snoc, dict_get_set, dict_get_last_app. simpl.
    destruct (String.eqb k0 k); [reflexivity | exact IH].
Qed.

Lemma dict_get_last_none (d : dict) (k : string) :
  dict_get_last d k = None <-> dict_get d k = None.
Proof.
  induction d as [|[k0 v0] d IH]; simpl.
  - tauto.
  - destruct (String.eqb k0 k).
    + split; [|discriminate].
      destruct (dict_get_last d k); discriminate.
    + destruct (dict_get_last d k); [split; [intro X; discriminate|]|]; tauto.
Qed.

(** On a dict proper, whose keys are distinct, the two lookups agree. *)
Lemma dict_get_last_nodup (d : dict) (k : string) :
  NoDup (dict_keys d) -> dict_get_last d k = dict_get d k.
Proof.
  induction d as [|[k0 v0] d IH]; simpl; intro ND.
  - reflexivity.
  - inversion ND as [|? ? Hnotin ND']; subst.
    destruct (String.eqb k0 k) eqn:E.
    + apply String.eqb_eq in E; subst k0.
      replace (dict_get_last d k) with (@None value); [reflexivity|].
      symmetry. apply dict_get_last_none.
      clear - Hnotin. induction d as [|[k1 v1] d IH]; simpl in *.
      * reflexivity.
      * destruct (String.eqb k1 k) eqn:E1.
        -- apply String.eqb_eq in E1. tauto.
        -- apply IH. tauto.
    + rewrite (IH ND'). destruct (dict_get d k); reflexivity.
Qed.

Lemma dict_get_some_in (d : dict) (k : string) (v : value) :
  dict_get d k = Some v -> In k (dict_keys d).
Proof.
  induction d as [|[k0 v0] d IH]; simpl; [discriminate|].
  destruct (String.eqb k0 k) eqn:E.
  - apply String.eqb_eq in E. auto.
  - auto.
Qed.

Lemma dict_get_in (d : dict) (k : string) :
  In k (dict_keys d) -> exists v, dict_get d k = Some v.
Proof.
  induction d as [|[k0 v0] d IH]; simpl; [tauto|].
  intros [->|Hin].
  - rewrite String.eqb_refl. eauto.
  - destruct (String.eqb k0 k); eauto.
Qed.

(** [update] keeps every key it finds and adds every key it is given. *)
Lemma dict_update_keeps (d other : dict) (k : string) :
  In k (dict_keys d) -> In k (dict_keys (dict_update d other)).
Proof.
  intros Hin. destruct (dict_get_in _ _ Hin) as [v Hv].
  assert (exists w, dict_get (dict_update d other) k = Some w) as [w Hw].
  { rewrite dict_get_update, Hv. destruct (dict_get_last other k); eauto. }
  eapply dict_get_some_in; eauto.
Qed.

Lemma dict_update_adds (d other : dict) (k : string) :
  In k (dict_keys other) -> In k (dict_keys (dict_update d other)).
Proof.
  intros Hin. destruct (dict_get_in _ _ Hin) as [v Hv].
  assert (exists w, dict_get (dict_update d other) k = Some w) as [w Hw].
  { rewrite dict_get_update.
    destruct (dict_get_last other k) eqn:E; eauto.
    apply dict_get_last_none in E. congruence. }
  eapply dict_get_some_in; eauto.
Qed.

Lemma dict_update_keys (d other : dict) (k : string) :
  In k (dict_keys (dict_update d other)) ->
  In k (dict_keys d) \/ In k (dict_keys other).
Proof.
  intros Hin. destruct (dict_get_in _ _ Hin) as [v Hv].
  rewrite dict_get_update in Hv.
  destruct (dict_get_last other k) eqn:E.
  - right. destruct (dict_get other k) eqn:E'.
    + eapply dict_get_some_in; eauto.
    + apply dict_get_last_none in E'. congruence.
  - left. eapply dict_get_some_in; eauto.
Qed.

End DictFacts.

Section DictShape.

Lemma dict_set_keys (d : dict) (k x : string) (v : value) :
  In x (dict_keys (dict_set d k v)) -> x = k \/ In x (dict_keys d).
Proof.
  induction d as [|[k0 v0] d IH]; simpl.
  - intros [<-|[]]; auto.
  - destruct (String.eqb k0 k) eqn:E; simpl.
    + apply String.eqb_eq in E; subst k0. tauto.
    + intros [->|Hin]; [tauto|]. destruct (IH Hin); tauto.
Qed.

Lemma dict_set_nodup (d : dict) (k : string) (v : value) :
  NoDup (dict_keys d) -> NoDup (dict_keys (dict_set d k v)).
Proof.
  induction d as [|[k0 v0] d IH]; simpl; intro ND.
  - constructor; [intros []|constructor].
  - inversion ND as [|? ? Hnotin ND']; subst.
    destruct (String.eqb k0 k) eqn:E; simpl.
    + apply String.eqb_eq in E; subst k0. constructor; assumption.
    + constructor; [|auto].
      intro Hin. apply dict_set_keys in Hin as [->|Hin]; [|tauto].
      rewrite String.eqb_refl in E. discriminate.
Qed.

Lemma dict_update_nodup (d other : dict) :
  NoDup (dict_keys d) -> NoDup (dict_keys (dict_update d other)).
Proof.
  revert d. unfold dict_update.
  induction other as [|[k v] other IH]; simpl; intros d ND.
  - assumption.
  - apply IH, dict_set_nodup, ND.
Qed.

End DictShape.

(** ** The builder *)

Section BuilderFacts.
Context {H : Host}.

(** The dict the scraping loop leaves behind, from any starting dict. *)
Lemma scrape_get (bases : list (string * dict)) (start : dict) (k : string) :
  dict_get
    (fold_left
       (fun fields base => dict_update fields (yank_fields_from_attrs (snd base)))
       (rev bases) start) k =
  match declared_field bases k with
  | Some v => Some v
  | None => dict_get start k
  end.
Proof.
  induction bases as [|base bases IH]; simpl.
  - reflexivity.
  - rewrite fold_left_app. simpl. rewrite dict_get_update, IH.
    destruct (dict_get_last (yank_fields_from_attrs (snd base)) k); reflexivity.
Qed.

Lemma collect_fields_get (cls : klass) (k : string) :
  dict_get (collect_fields cls) k = declared_field (k_mro cls) k.
Proof.
  unfold collect_fields. rewrite scrape_get.
  destruct (declared_field (k_mro cls) k); reflexivity.
Qed.

Lemma collect_fields_nodup (cls : klass) : NoDup (dict_keys (collect_fields cls)).
Proof.
  unfold collect_fields.
  assert (forall (bases : list (string * dict)) start, NoDup (dict_keys start) ->
          NoDup (dict_keys
            (fold_left
               (fun fields base =>
                  dict_update fields (yank_fields_from_attrs (snd base)))
               bases start))) as Hfold.
  { induction bases as [|b bases IH]; simpl; intros start ND; [assumption|].
    apply IH, dict_update_nodup, ND. }
  apply Hfold. constructor.
Qed.

(** [_meta.fields] after lines 134-137 reads every new field. *)
Lemma store_fields_get (old : option dict) (fields : dict) (k : string) (v : value) :
  NoDup (dict_keys fields) ->
  dict_get fields k = Some v ->
  dict_get (store_fields old fields) k = Some v.
Proof.
  intros ND Hget. destruct old as [[|item items]|]; simpl; try assumption.
  rewrite dict_get_update, (dict_get_last_nodup _ _ ND), Hget. reflexivity.
Qed.

Lemma store_fields_keys (old : option dict) (fields : dict) (k : string) :
  In k (dict_keys (store_fields old fields)) ->
  In k (option_keys old) \/ In k (dict_keys fields).
Proof.
  destruct old as [[|item items]|]; simpl; auto.
  intro Hin. apply dict_update_keys in Hin. exact Hin.
Qed.

Lemma store_fields_adds (old : option dict) (fields : dict) (k : string) :
  In k (dict_keys fields) -> In k (dict_keys (store_fields old fields)).
Proof.
  destruct old as [[|item items]|]; simpl; auto.
  apply dict_update_adds.
Qed.

(** The interface loop, when it completes: the start dict updated with the
    fields of each interface in turn. *)
Lemma merge_interfaces_keys (cls : klass) (interfaces : list value)
      (start fields : dict) (k : string) :
  merge_interfaces cls interfaces start = Ok fields ->
  In k (dict_keys fields) ->
  In k (dict_keys start) \/
  exists c, In (VClass c) interfaces /\ In k (dict_keys (k_meta_fields c)).
Proof.
  revert start. induction interfaces as [|i rest IH]; simpl; intros start Hm Hin.
  - inversion Hm; subst. auto.
  - destruct i as [| | | | | | | |c]; try discriminate.
    destruct (is_interface c) eqn:Ei; [|discriminate].
    destruct (k_meta c) as [interface_fields|] eqn:Em; [|discriminate].
    destruct (IH _ Hm Hin) as [Hs|[c' [Hc' Hk]]].
    + apply dict_update_keys in Hs as [Hs|Hs]; [auto|].
      right. exists c. unfold k_meta_fields. rewrite Em. auto.
    + right. exists c'. auto.
Qed.

Lemma merge_interfaces_has (cls : klass) (interfaces : list value)
      (start fields : dict) (c : klass) (k : string) :
  merge_interfaces cls interfaces start = Ok fields ->
  (In k (dict_keys start) \/
   (In (VClass c) interfaces /\ In k (dict_keys (k_meta_fields c)))) ->
  In k (dict_keys fields).
Proof.
  revert start. induction interfaces as [|i rest IH]; simpl; intros start Hm Hin.
  - inversion Hm; subst. destruct Hin as [Hin|[[] _]]. exact Hin.
  - destruct i as [| | | | | | | |c0]; try discriminate.
    destruct (is_interface c0) eqn:Ei; [|discriminate].
    destruct (k_meta c0) as [interface_fields|] eqn:Em; [|discriminate].
    apply (IH _ Hm).
    destruct Hin as [Hin|[[Heq|Hin] Hk]].
    + left. apply dict_update_keeps, Hin.
    + inversion Heq; subst c0. left. apply dict_update_adds.
      unfold k_meta_fields in Hk. rewrite Em in Hk. exact Hk.
    + right. auto.
Qed.

Lemma merge_interfaces_valid (cls : klass) (interfaces : list value) (start : dict) :
  forallb completes_interface_loop interfaces = true ->
  exists fields, merge_interfaces cls interfaces start = Ok fields.
Proof.
  revert start. induction interfaces as [|i rest IH]; simpl; intros start Hall.
  - eauto.
  - apply andb_true_iff in Hall as [Hi Hrest].
    destruct i as [| | | | | | | |c]; try discriminate.
    simpl in Hi. apply andb_true_iff in Hi as [Hi Hmeta]. rewrite Hi.
    destruct (k_meta c); [|discriminate]. apply IH, Hrest.
Qed.

(** The loop stops at the first entry it does not get past. *)
Lemma merge_interfaces_stops (cls : klass) (pre post : list value) (bad : value)
      (start : dict) :
  forallb completes_interface_loop pre = true ->
  completes_interface_loop bad = false ->
  merge_interfaces cls (pre ++ bad :: post) start
  = Raise (interface_error cls bad).
Proof.
  revert start. induction pre as [|i pre IH]; simpl; intros start Hall Hbad.
  - destruct bad as [| | | | | | | |c]; try reflexivity.
    simpl in Hbad. simpl. destruct (is_interface c); [|reflexivity].
    destruct (k_meta c); [discriminate|reflexivity].
  - apply andb_true_iff in Hall as [Hi Hrest].
    destruct i as [| | | | | | | |c]; try discriminate.
    simpl in Hi. apply andb_true_iff in Hi as [Hi Hmeta]. rewrite Hi.
    destruct (k_meta c); [|discriminate]. apply IH; assumption.
Qed.

(** What a successful construction returns, step by step. *)
Lemma init_subclass_with_meta_ok
      (cls : klass) (interfaces : list value) (resolver output : value)
      (arguments : option dict) (_meta : option MutationOptions)
      (warnings : list string) (m : MutationOptions) :
  init_subclass_with_meta cls interfaces resolver output arguments _meta
  = (warnings, Ok m) ->
  exists ifields,
    merge_interfaces cls interfaces [] = Ok ifields /\
    warnings = fst (resolve_arguments cls arguments) /\
    resolve_resolver cls resolver (snd (resolve_arguments cls arguments))
    = Ok (meta_resolver m) /\
    meta_output m =
      (if truthy (py_or output (getattr cls "Output"))
       then py_or output (getattr cls "Output") else VClass cls) /\
    meta_fields m =
      Some (store_fields (prior_fields _meta)
              (if truthy (py_or output (getattr cls "Output"))
               then ifields else collect_fields cls)) /\
    meta_arguments m = Some (snd (resolve_arguments cls arguments)) /\
    meta_interfaces m = interfaces.
Proof.
  unfold init_subclass_with_meta. intros Hinit.
  destruct (merge_interfaces cls interfaces []) as [ifields|e]; [|discriminate].
  exists ifields.
  destruct (resolve_arguments cls arguments) as [ws args] eqn:Ea. simpl.
  destruct (truthy (py_or output (getattr cls "Output")));
    destruct (resolve_resolver cls resolver args) as [r|e]; try discriminate;
    inversion Hinit; subst; simpl;
    destruct _meta; simpl; repeat split; reflexivity.
Qed.

End BuilderFacts.

Section DeclaredFields.
Context {H : Host}.

(** The most derived class that declares a field decides it, whatever the
    classes after it in the [__mro__] declare. *)
Lemma declared_field_most_derived
      (pre post : list (string * dict)) (base : string * dict)
      (k : string) (v : value) :
  (forall b, In b pre -> dict_get_last (yank_fields_from_attrs (snd b)) k = None) ->
  dict_get_last (yank_fields_from_attrs (snd base)) k = Some v ->
  declared_field (pre ++ base :: post) k = Some v.
Proof.
  induction pre as [|b pre IH]; simpl; intros Hpre Hbase.
  - rewrite Hbase. reflexivity.
  - rewrite (Hpre b (or_introl eq_refl)). apply IH; auto.
Qed.

(** A declared field comes from a class of the [__mro__]. *)
Lemma declared_field_origin (mro : list (string * dict)) (k : string) (v : value) :
  declared_field mro k = Some v ->
  exists base, In base mro /\
               dict_get_last (yank_fields_from_attrs (snd base)) k = Some v.
Proof.
  induction mro as [|b mro IH]; simpl; [discriminate|].
  destruct (dict_get_last (yank_fields_from_attrs (snd b)) k) eqn:E.
  - intro Hv. inversion Hv; subst. exists b. auto.
  - intro Hv. destruct (IH Hv) as [base [Hin Hb]]. exists base. auto.
Qed.

(** With an explicit output type the fields of every declared interface are
    recorded on [_meta]. *)
Lemma interface_fields_kept_with_output
      (cls : klass) (interfaces : list value) (resolver output : value)
      (arguments : option dict) (_meta : option MutationOptions)
      (warnings : list string) (m : MutationOptions) (c : klass) (k : string) :
  truthy (py_or output (getattr cls "Output")) = true ->
  init_subclass_with_meta cls interfaces resolver output arguments _meta
  = (warnings, Ok m) ->
  In (VClass c) interfaces ->
  In k (dict_keys (k_meta_fields c)) ->
  In k (option_keys (meta_fields m)).
Proof.
  intros Hout Hinit Hc Hk.
  destruct (init_subclass_with_meta_ok _ _ _ _ _ _ _ _ Hinit)
    as [ifields [Hm [_ [_ [_ [Hf _]]]]]].
  rewrite Hout in Hf. rewrite Hf. simpl.
  apply store_fields_adds.
  apply (merge_interfaces_has _ _ _ _ c k Hm). auto.
Qed.

End DeclaredFields.

(** ** Output type and field set *)

(** C1 (as the code has it): when no explicit output type is given, the
    field dict built from the declared interfaces is replaced by a fresh
    one before the class attributes are scraped (line 102), so the field
    set recorded on a fresh [_meta] is the scraped one alone, whatever the
    interfaces declare. *)
Theorem C1_interface_fields_dropped_without_output
        {H : Host} (cls : klass) (interfaces : list value)
        (resolver output : value) (arguments : option dict)
        (warnings : list string) (m : MutationOptions) :
  truthy (py_or output (getattr cls "Output")) = false ->
  init_subclass_with_meta cls interfaces resolver output arguments None
  = (warnings, Ok m) ->
  meta_fields m = Some (collect_fields cls).
Proof.
  intros Hout Hinit.
  destruct (init_subclass_with_meta_ok _ _ _ _ _ _ _ _ Hinit)
    as [ifields [_ [_ [_ [_ [Hf _]]]]]].
  rewrite Hout in Hf. exact Hf.
Qed.

(** [CreatePerson] declaring the interface [Node]: the field [id] of the
    interface is not in the recorded field set. *)
Lemma C1_failing_input :
  In (VClass Node) [VClass Node] /\
  In "id" (dict_keys (k_meta_fields Node)) /\
  exists m,
    init_subclass_with_meta CreatePerson [VClass Node] VNone VNone None None
    = ([], Ok m) /\
    meta_fields m = Some (collect_fields CreatePerson) /\
    dict_get (collect_fields CreatePerson) "id" = None.
Proof.
  split; [simpl; auto|]. split; [simpl; auto|].
  eexists. split; [reflexivity|]. split; [|reflexivity].
  eapply (C1_interface_fields_dropped_without_output
            CreatePerson [VClass Node] VNone VNone None []);
    reflexivity.
Defined.

(** C3: a definition with no [Meta] output and no [Output] inner class gets
    itself as the output type of its field; the field set stored on [_meta]
    is the one scraped from the classes of its [__mro__], the most base
    class first and the definition last, so that for every name the most
    derived class declaring it decides the field, and every scraped field
    is declared by one of these classes. *)
Theorem C3_fields_scraped_base_first
        {H : Host} (cls : klass) (interfaces : list value)
        (resolver output : value) (arguments : option dict)
        (_meta : option MutationOptions)
        (warnings : list string) (m : MutationOptions)
        (name description deprecation_reason required : value) :
  truthy output = false ->
  truthy (getattr cls "Output") = false ->
  init_subclass_with_meta cls interfaces resolver output arguments _meta
  = (warnings, Ok m) ->
  fd_type (Field m name description deprecation_reason required) = VClass cls /\
  meta_fields m = Some (store_fields (prior_fields _meta) (collect_fields cls)) /\
  (forall k, dict_get (collect_fields cls) k = declared_field (k_mro cls) k) /\
  (forall pre base post k v,
      k_mro cls = pre ++ base :: post ->
      (forall b, In b pre ->
                 dict_get_last (yank_fields_from_attrs (snd b)) k = None) ->
      dict_get_last (yank_fields_from_attrs (snd base)) k = Some v ->
      dict_get (store_fields (prior_fields _meta) (collect_fields cls)) k
      = Some v) /\
  (forall k v,
      dict_get (collect_fields cls) k = Some v ->
      exists base, In base (k_mro cls) /\
                   dict_get_last (yank_fields_from_attrs (snd base)) k = Some v).
Proof.
  intros Ho HO Hinit.
  assert (truthy (py_or output (getattr cls "Output")) = false) as Hout.
  { unfold py_or. rewrite Ho. exact HO. }
  destruct (init_subclass_with_meta_ok _ _ _ _ _ _ _ _ Hinit)
    as [ifields [_ [_ [_ [Hty [Hf _]]]]]].
  rewrite Hout in Hty, Hf.
  split; [exact Hty|]. split; [exact Hf|].
  split; [apply collect_fields_get|]. split.
  - intros pre base post k v Hmro Hpre Hbase.
    apply store_fields_get; [apply collect_fields_nodup|].
    rewrite collect_fields_get, Hmro.
    apply declared_field_most_derived; assumption.
  - intros k v Hget. rewrite collect_fields_get in Hget.
    apply declared_field_origin, Hget.
Qed.

(** [DerivedMutation] redeclares the [ok] of [CreatePerson]: its own
    declaration is the one recorded. *)
Lemma C3_witness :
  exists m,
    init_subclass_with_meta DerivedMutation [] VNone VNone None None = ([], Ok m) /\
    fd_type (Field m VNone VNone VNone (VBool false)) = VClass DerivedMutation /\
    meta_fields m = Some [("ok", ID_); ("person", Person_field)] /\
    dict_get (collect_fields DerivedMutation) "ok" = Some ID_.
Proof.
  eexists. split; [reflexivity|].
  destruct (C3_fields_scraped_base_first
              DerivedMutation [] VNone VNone None None [] _
              VNone VNone VNone (VBool false) eq_refl eq_refl eq_refl)
    as [Hty [Hf [_ [Hwin _]]]].
  split; [exact Hty|]. split; [exact Hf|].
  apply (Hwin [] ("DerivedMutation", [("ok", ID_)]) (k_mro CreatePerson) "ok" ID_).
  - reflexivity.
  - intros b [].
  - reflexivity.
Defined.

(** What the whole hook returns when it succeeds: the [_meta] of lines
    88-142, passed through the parent hook. *)
Lemma Mutation_init_subclass_with_meta_ok
      {H : Host} (cls : klass) (interfaces : list value)
      (resolver output : value) (arguments : option dict)
      (_meta : option MutationOptions) (options : dict)
      (warnings : list string) (m : MutationOptions) :
  Mutation_init_subclass_with_meta cls interfaces resolver output arguments
                                   _meta options
  = (warnings, Ok m) ->
  exists built,
    init_subclass_with_meta cls interfaces resolver output arguments _meta
    = (warnings, Ok built) /\
    parent_init_subclass_with_meta cls built options = Ok m.
Proof.
  unfold Mutation_init_subclass_with_meta.
  destruct (init_subclass_with_meta cls interfaces resolver output arguments _meta)
    as [ws [built|e]]; intro Hhook; [|discriminate Hhook].
  inversion Hhook. exists built. split; congruence.
Qed.

(** The parent hook of the examples merges the scraped fields. *)
Lemma example_parent_updates_fields : @parent_updates_fields example_host.
Proof.
  intros cls built options finished Hp. inversion Hp. simpl.
  repeat split.
Qed.

(** C4, amended: with an explicit output type ([Meta] output, or else the
    [Output] inner class) the field's output type is that type.  Lines
    100-105 scrape nothing, so the field set built for the parent hook is
    the prior one updated with the interface fields alone; the parent hook
    called at line 144 then merges the fields scraped from the class
    attributes into it, so that the finished field set holds every scraped
    field, and every name in it comes from the prior [_meta], from a
    declared interface or from scraping. *)
Theorem C4_explicit_output_fields
        {H : Host} (cls : klass) (interfaces : list value)
        (resolver output : value) (arguments : option dict)
        (_meta : option MutationOptions) (options : dict)
        (warnings : list string) (m : MutationOptions)
        (name description deprecation_reason required : value) :
  parent_updates_fields ->
  truthy (py_or output (getattr cls "Output")) = true ->
  Mutation_init_subclass_with_meta cls interfaces resolver output arguments
                                   _meta options
  = (warnings, Ok m) ->
  fd_type (Field m name description deprecation_reason required)
  = py_or output (getattr cls "Output") /\
  (exists ifields built,
      merge_interfaces cls interfaces [] = Ok ifields /\
      init_subclass_with_meta cls interfaces resolver output arguments _meta
      = (warnings, Ok built) /\
      meta_fields built = Some (store_fields (prior_fields _meta) ifields) /\
      meta_fields m
      = Some (store_fields (meta_fields built) (collect_fields cls))) /\
  (forall k v,
      declared_field (k_mro cls) k = Some v ->
      option_get (meta_fields m) k = Some v) /\
  (forall k,
      In k (option_keys (meta_fields m)) ->
      In k (option_keys (prior_fields _meta)) \/
      (exists c, In (VClass c) interfaces /\ In k (dict_keys (k_meta_fields c))) \/
      In k (dict_keys (collect_fields cls))).
Proof.
  intros Hparent Hout Hhook.
  destruct (Mutation_init_subclass_with_meta_ok _ _ _ _ _ _ _ _ _ Hhook)
    as [built [Hinit Hp]].
  destruct (Hparent _ _ _ _ Hp) as [Hf [Ho _]].
  destruct (init_subclass_with_meta_ok _ _ _ _ _ _ _ _ Hinit)
    as [ifields [Hm [_ [_ [Hty [Hbf _]]]]]].
  rewrite Hout in Hty, Hbf.
  split; [simpl; congruence|].
  split; [exists ifields, built; auto|].
  split.
  - intros k v Hd. rewrite Hf. simpl.
    apply store_fields_get; [apply collect_fields_nodup|].
    rewrite collect_fields_get. exact Hd.
  - intros k Hin. rewrite Hf in Hin. simpl in Hin.
    apply store_fields_keys in Hin as [Hin|Hin]; [|auto].
    rewrite Hbf in Hin. simpl in Hin.
    apply store_fields_keys in Hin as [Hin|Hin]; [auto|].
    destruct (merge_interfaces_keys _ _ _ _ _ Hm Hin) as [[]|Hc]. auto.
Qed.

(** [OutputMutation] has an [Output] inner class and a class attribute
    [extra]; it declares the interface [Node]. *)
Lemma C4_witness :
  exists m,
    Mutation_init_subclass_with_meta
      OutputMutation [VClass Node] VNone VNone None None []
    = ([], Ok m) /\
    fd_type (Field m VNone VNone VNone (VBool false)) = VClass Payload /\
    option_get (meta_fields m) "extra" = Some Boolean_.
Proof.
  eexists. split; [reflexivity|].
  destruct (C4_explicit_output_fields
              OutputMutation [VClass Node] VNone VNone None None [] [] _
              VNone VNone VNone (VBool false)
              example_parent_updates_fields eq_refl eq_refl)
    as [Hty [_ [Hscraped _]]].
  split; [exact Hty|].
  apply Hscraped. reflexivity.
Defined.

(** C4 as stated fails: [OutputMutation] supplies an output type, and the
    field set of the finished class holds [extra], which no interface and
    no prior [_meta] has and which is scraped from its class attributes. *)
Lemma C4_counterexample :
  truthy (py_or VNone (getattr OutputMutation "Output")) = true /\
  last_interface_field [VClass Node] "extra" = None /\
  dict_get (collect_fields OutputMutation) "extra" = Some Boolean_ /\
  exists m,
    Mutation_init_subclass_with_meta
      OutputMutation [VClass Node] VNone VNone None None []
    = ([], Ok m) /\
    meta_fields m = Some [("id", ID_); ("extra", Boolean_)].
Proof.
  split; [reflexivity|]. split; [reflexivity|]. split; [reflexivity|].
  eexists. split; reflexivity.
Qed.

(** ** Arguments *)

Section ArgumentFacts.
Context {H : Host}.

Lemma resolve_arguments_Arguments (cls : klass) (arguments : option dict) :
  dict_truthy arguments = false ->
  truthy (getattr cls "Arguments") = true ->
  resolve_arguments cls arguments = ([], props (getattr cls "Arguments")).
Proof.
  intros Ha HA. unfold resolve_arguments.
  destruct arguments as [[|item items]|]; try discriminate;
    rewrite HA; simpl; rewrite HA; reflexivity.
Qed.

Lemma resolve_arguments_Input (cls : klass) (arguments : option dict) :
  dict_truthy arguments = false ->
  truthy (getattr cls "Arguments") = false ->
  truthy (getattr cls "Input") = true ->
  resolve_arguments cls arguments
  = ([deprecation_message (k_name cls)], props (getattr cls "Input")).
Proof.
  intros Ha HA HI. unfold resolve_arguments.
  destruct arguments as [[|item items]|]; try discriminate;
    rewrite HA, HI; simpl; rewrite HI; reflexivity.
Qed.

Lemma resolve_arguments_neither (cls : klass) (arguments : option dict) :
  dict_truthy arguments = false ->
  truthy (getattr cls "Arguments") = false ->
  truthy (getattr cls "Input") = false ->
  resolve_arguments cls arguments = ([], []).
Proof.
  intros Ha HA HI. unfold resolve_arguments.
  destruct arguments as [[|item items]|]; try discriminate;
    rewrite HA, HI; simpl; rewrite HI; reflexivity.
Qed.

End ArgumentFacts.

(** C5: without [Meta] arguments the field's arguments are the attributes
    of the [Arguments] inner class when the definition has one; with only
    the legacy [Input] inner class they are the attributes of [Input] and
    the deprecation warning is emitted; with neither they are the empty
    dict. *)
Theorem C5_arguments_from_declaration
        {H : Host} (cls : klass) (interfaces : list value)
        (resolver output : value) (arguments : option dict)
        (_meta : option MutationOptions)
        (warnings : list string) (m : MutationOptions)
        (name description deprecation_reason required : value) :
  dict_truthy arguments = false ->
  init_subclass_with_meta cls interfaces resolver output arguments _meta
  = (warnings, Ok m) ->
  (truthy (getattr cls "Arguments") = true ->
   fd_args (Field m name description deprecation_reason required)
   = Some (props (getattr cls "Arguments"))) /\
  (truthy (getattr cls "Arguments") = false ->
   truthy (getattr cls "Input") = true ->
   fd_args (Field m name description deprecation_reason required)
   = Some (props (getattr cls "Input")) /\
   warnings = [deprecation_message (k_name cls)]) /\
  (truthy (getattr cls "Arguments") = false ->
   truthy (getattr cls "Input") = false ->
   fd_args (Field m name description deprecation_reason required) = Some []).
Proof.
  intros Ha Hinit.
  destruct (init_subclass_with_meta_ok _ _ _ _ _ _ _ _ Hinit)
    as [ifields [_ [Hw [_ [_ [_ [Hargs _]]]]]]].
  simpl. rewrite Hargs, Hw. split; [|split].
  - intro HA. rewrite (resolve_arguments_Arguments _ _ Ha HA). reflexivity.
  - intros HA HI. rewrite (resolve_arguments_Input _ _ Ha HA HI).
    split; reflexivity.
  - intros HA HI. rewrite (resolve_arguments_neither _ _ Ha HA HI). reflexivity.
Qed.

(** [CreatePerson] declares [Arguments], [LegacyMutation] only [Input],
    [OutputMutation] neither. *)
Lemma C5_witness :
  (exists m,
      init_subclass_with_meta CreatePerson [] VNone VNone None None = ([], Ok m) /\
      fd_args (Field m VNone VNone VNone (VBool false)) = Some [("name", String_)]) /\
  (exists m,
      init_subclass_with_meta LegacyMutation [] VNone VNone None None
      = ([deprecation_message "LegacyMutation"], Ok m) /\
      fd_args (Field m VNone VNone VNone (VBool false)) = Some [("user", UserInput)]) /\
  (exists m,
      init_subclass_with_meta OutputMutation [] VNone VNone None None = ([], Ok m) /\
      fd_args (Field m VNone VNone VNone (VBool false)) = Some []).
Proof.
  split; [|split]; (eexists; split; [reflexivity|]).
  - exact (proj1 (C5_arguments_from_declaration
                    CreatePerson [] VNone VNone None None [] _
                    VNone VNone VNone (VBool false) eq_refl eq_refl) eq_refl).
  - exact (proj1 (proj1 (proj2 (C5_arguments_from_declaration
                    LegacyMutation [] VNone VNone None None _ _
                    VNone VNone VNone (VBool false) eq_refl eq_refl))
                    eq_refl eq_refl)).
  - exact (proj2 (proj2 (C5_arguments_from_declaration
                    OutputMutation [] VNone VNone None None [] _
                    VNone VNone VNone (VBool false) eq_refl eq_refl))
                    eq_refl eq_refl).
Defined.

(** C10: without [Meta] arguments, a definition that has an [Arguments]
    inner class takes its arguments from it alone and no warning is
    emitted, whatever its [Input] attribute is. *)
Theorem C10_Arguments_shadows_Input
        {H : Host} (cls : klass) (interfaces : list value)
        (resolver output : value) (arguments : option dict)
        (_meta : option MutationOptions)
        (warnings : list string) (m : MutationOptions)
        (name description deprecation_reason required : value) :
  dict_truthy arguments = false ->
  truthy (getattr cls "Arguments") = true ->
  truthy (getattr cls "Input") = true ->
  init_subclass_with_meta cls interfaces resolver output arguments _meta
  = (warnings, Ok m) ->
  fd_args (Field m name description deprecation_reason required)
  = Some (props (getattr cls "Arguments")) /\
  meta_arguments m = Some (props (getattr cls "Arguments")) /\
  warnings = [].
Proof.
  intros Ha HA _ Hinit.
  destruct (init_subclass_with_meta_ok _ _ _ _ _ _ _ _ Hinit)
    as [ifields [_ [Hw [_ [_ [_ [Hargs _]]]]]]].
  simpl. rewrite Hargs, Hw, (resolve_arguments_Arguments _ _ Ha HA).
  repeat split.
Qed.

(** [BothMutation] declares both inner classes. *)
Lemma C10_witness :
  exists m,
    init_subclass_with_meta BothMutation [] VNone VNone None None = ([], Ok m) /\
    fd_args (Field m VNone VNone VNone (VBool false)) = Some [("name", String_)] /\
    props (getattr BothMutation "Input") = [("user", UserInput)].
Proof.
  eexists. split; [reflexivity|]. split; [|reflexivity].
  exact (proj1 (C10_Arguments_shadows_Input
                  BothMutation [] VNone VNone None None [] _
                  VNone VNone VNone (VBool false)
                  eq_refl eq_refl eq_refl eq_refl)).
Defined.

(** ** Failures at construction *)




(** C7, amended: construction fails at the first entry of [interfaces] that
    the loop of lines 94-98 does not get past, before any warning and
    before the parent hook: with the assertion error whose message carries
    the name of the mutation class and the text of the entry when it is a
    class that is not a subclass of [Interface]; with the type error of
    [issubclass] when it is not a class; with the attribute error of line
    98 when it is [Interface] itself or an abstract interface, whose
    [_meta] is [None]. *)
Theorem C7_interface_check
        {H : Host} (cls : klass) (pre post : list value) (bad : value)
        (resolver output : value) (arguments : option dict)
        (_meta : option MutationOptions) (options : dict) :
  forallb completes_interface_loop pre = true ->
  completes_interface_loop bad = false ->
  Mutation_init_subclass_with_meta cls (pre ++ bad :: post) resolver output
                                   arguments _meta options
  = ([],
     Raise
       match bad with
       | VClass c =>
           if is_interface c
           then AttributeError "'NoneType' object has no attribute 'fields'"
           else AssertionError (interface_message (k_name cls) (k_str c))
       | _ => TypeError "issubclass() arg 1 must be a class"
       end).
Proof.
  intros Hpre Hbad.
  unfold Mutation_init_subclass_with_meta, init_subclass_with_meta.
  rewrite (merge_interfaces_stops cls pre post bad [] Hpre Hbad).
  reflexivity.
Qed.

(** [CreatePerson] declaring [Node] and then the object type [Person]. *)
Lemma C7_witness :
  Mutation_init_subclass_with_meta
    CreatePerson [VClass Node; VClass NotAnInterface; VStr "x"]
    VNone VNone None None []
  = ([], Raise (AssertionError
                  (interface_message "CreatePerson" "Person"))).
Proof.
  exact (C7_interface_check CreatePerson [VClass Node] [VStr "x"]
           (VClass NotAnInterface) VNone VNone None None []
           eq_refl eq_refl).
Defined.

(** C7 as stated fails.  A string among the interfaces is not a subclass
    of [Interface], and the error is the type error of [issubclass]; the
    object type [Person] declared after an abstract interface is not one
    either, and the error is the attribute error raised on the abstract
    interface.  Neither is an assertion error. *)
Lemma C7_counterexample :
  (is_interface_value (VStr "Node") = false /\
   Mutation_init_subclass_with_meta
     CreatePerson [VStr "Node"] VNone VNone None None []
   = ([], Raise (TypeError "issubclass() arg 1 must be a class"))) /\
  (is_interface_value (VClass NotAnInterface) = false /\
   Mutation_init_subclass_with_meta
     CreatePerson [VClass AbstractNode; VClass NotAnInterface]
     VNone VNone None None []
   = ([], Raise (AttributeError "'NoneType' object has no attribute 'fields'"))).
Proof. repeat split. Qed.

(** ** The generated resolver *)

Section ResolverFacts.
Context {H : Host}.

Lemma bind_lift_ok {A B} (a : A) (k : A -> M B) (w : World) :
  bind (lift (Ok a)) k w = k a w.
Proof. unfold bind, lift. destruct (k a w) as [[tr w'] r]. reflexivity. Qed.

Lemma bind_lift_raise {A B} (e : exn) (k : A -> M B) (w : World) :
  bind (lift (Raise e)) k w = ([], w, Raise e).
Proof. reflexivity. Qed.

Lemma for_each_app {A} (xs ys : list A) (body : A -> M unit) (w : World) :
  for_each (xs ++ ys) body w
  = bind (for_each xs body) (fun _ => for_each ys body) w.
Proof.
  revert w. induction xs as [|x xs IH]; intro w; simpl.
  - unfold bind, ret. destruct (for_each ys body w) as [[tr w'] r]. reflexivity.
  - unfold bind. destruct (body x w) as [[tr w'] [[]|e]]; [|reflexivity].
    rewrite IH. unfold bind.
    destruct (for_each xs body w') as [[tr1 w1] [[]|e1]]; [|reflexivity].
    destruct (for_each ys body w1) as [[tr2 w2] r2].
    rewrite app_assoc. reflexivity.
Qed.

(** A loop that completes has logged what each round logs. *)
Lemma for_each_trace {A} (xs : list A) (body : A -> M unit)
      (logged : A -> list event) :
  (forall x w tr w', In x xs -> body x w = (tr, w', Ok tt) -> tr = logged x) ->
  forall w tr w',
    for_each xs body w = (tr, w', Ok tt) -> tr = flat_map logged xs.
Proof.
  induction xs as [|x xs IH]; simpl; intros Hbody w tr w' Hrun.
  - inversion Hrun. reflexivity.
  - unfold bind in Hrun.
    destruct (body x w) as [[tr1 w1] [[]|e]] eqn:E1; [|discriminate].
    destruct (for_each xs body w1) as [[tr2 w2] r2] eqn:E2.
    inversion Hrun; subst.
    rewrite (Hbody x w tr1 w1 (or_introl eq_refl) E1).
    rewrite (IH (fun y w0 t w0' Hy => Hbody y w0 t w0' (or_intror Hy)) w1 tr2 w' E2).
    reflexivity.
Qed.

(** A loop logs no call of [mutate] when its rounds log none. *)
Lemma for_each_no_mutate {A} (xs : list A) (body : A -> M unit) :
  (forall x w, existsb is_mutate (trace_of (body x w)) = false) ->
  forall w, existsb is_mutate (trace_of (for_each xs body w)) = false.
Proof.
  intros Hbody. induction xs as [|x xs IH]; intro w; simpl.
  - reflexivity.
  - unfold bind. specialize (Hbody x w).
    destruct (body x w) as [[tr1 w1] [[]|e]]; [|exact Hbody].
    specialize (IH w1).
    destruct (for_each xs body w1) as [[tr2 w2] r2].
    unfold trace_of in *. simpl in *.
    rewrite existsb_app, Hbody, IH. reflexivity.
Qed.

(** A loop with a round that always raises does not complete. *)
Lemma for_each_fails {A} (xs : list A) (body : A -> M unit) (x : A) :
  In x xs ->
  (forall w, exists e, outcome_of (body x w) = Raise e) ->
  forall w, exists e, outcome_of (for_each xs body w) = Raise e.
Proof.
  intros Hin Hx. induction xs as [|y xs IH]; [destruct Hin|].
  intro w. simpl. unfold bind.
  destruct (body y w) as [[tr1 w1] [[]|e]] eqn:E1.
  - destruct Hin as [->|Hin].
    + destruct (Hx w) as [e He]. rewrite E1 in He. discriminate He.
    + destruct (IH Hin w1) as [e He].
      destruct (for_each xs body w1) as [[tr2 w2] r2]. exists e. exact He.
  - exists e. reflexivity.
Qed.

(** One round of the inner loop: nothing without the attribute, and with it
    exactly the validator call when the round completes. *)
Lemma validate_input_skips (argument arg_value : value) (k : string) (w : World) :
  hasattr argument ("validate_" ++ k)%string = false ->
  validate_input argument arg_value k w = ([], w, Ok tt).
Proof. intro Hno. unfold validate_input. rewrite Hno. reflexivity. Qed.

Lemma validate_input_trace (argument : value) (d : dict) (k : string)
      (w w' : World) (tr : list event) :
  validate_input argument (VDict d) k w = (tr, w', Ok tt) ->
  tr = match attribute argument ("validate_" ++ k)%string, dict_get d k with
       | Some f, Some x => [EValidator f x]
       | _, _ => []
       end.
Proof.
  unfold validate_input, hasattr.
  generalize ("validate_" ++ k)%string as name. intro name.
  destruct argument as [| | | | | | |attrs|c];
    unfold attribute, getattribute;
    try (intro Hrun; inversion Hrun; reflexivity).
  - destruct (dict_get attrs name) as [f|];
      [|intro Hrun; inversion Hrun; reflexivity].
    rewrite bind_lift_ok. unfold item_of, subscript.
    destruct (dict_get d k) as [x|]; [|intro Hrun; discriminate Hrun].
    rewrite bind_lift_ok. unfold bind, invoke.
    destruct (call f [x] [] w) as [w1 [v|e]]; intro Hrun;
      [inversion Hrun; reflexivity | discriminate Hrun].
  - destruct (mro_lookup (k_mro c) name) as [f|];
      intro Hrun; [discriminate Hrun | inversion Hrun].
    reflexivity.
Qed.

Lemma validate_input_no_mutate (argument arg_value : value) (k : string) (w : World) :
  existsb is_mutate (trace_of (validate_input argument arg_value k w)) = false.
Proof.
  unfold validate_input.
  destruct (hasattr argument ("validate_" ++ k)%string); [|reflexivity].
  destruct (getattribute argument ("validate_" ++ k)%string) as [f|e];
    [rewrite bind_lift_ok | reflexivity].
  destruct (item_of arg_value k) as [x|e]; [rewrite bind_lift_ok | reflexivity].
  unfold bind, invoke.
  destruct (call f [x] [] w) as [w1 [v|e]]; reflexivity.
Qed.

(** One round of the outer loop. *)
Lemma validate_argument_trace (kwargs : dict) (entry : string * value)
      (w w' : World) (tr : list event) :
  validate_argument kwargs entry w = (tr, w', Ok tt) ->
  tr = match dict_get kwargs (fst entry) with
       | Some arg_value => expected_calls_of (snd entry) arg_value
       | None => []
       end.
Proof.
  unfold validate_argument, subscript.
  destruct (dict_get kwargs (fst entry)) as [arg_value|];
    [rewrite bind_lift_ok | intro Hrun; discriminate Hrun].
  destruct arg_value as [| | | | |d| | |]; try (intro Hrun; discriminate Hrun).
  simpl keys_of. rewrite bind_lift_ok. simpl.
  apply for_each_trace. intros k w0 tr0 w0' _. apply validate_input_trace.
Qed.

Lemma validate_argument_no_mutate (kwargs : dict) (entry : string * value)
      (w : World) :
  existsb is_mutate (trace_of (validate_argument kwargs entry w)) = false.
Proof.
  unfold validate_argument.
  destruct (subscript kwargs (fst entry)) as [arg_value|e];
    [rewrite bind_lift_ok | reflexivity].
  destruct (keys_of arg_value) as [names|e];
    [rewrite bind_lift_ok | reflexivity].
  apply for_each_no_mutate. intros k w0. apply validate_input_no_mutate.
Qed.

Lemma validate_argument_unreadable (kwargs : dict) (entry : string * value)
      (w : World) :
  unreadable kwargs (fst entry) = true ->
  validate_argument kwargs entry w
  = ([], w, Raise (unreadable_error kwargs (fst entry))).
Proof.
  unfold unreadable, unreadable_error, validate_argument, subscript.
  destruct (dict_get kwargs (fst entry)) as [arg_value|]; [|reflexivity].
  rewrite bind_lift_ok.
  destruct arg_value; try reflexivity. discriminate.
Qed.

(** [run_validators] as a whole. *)
Lemma run_validators_trace (arguments : dict) (args : list value) (kwargs : dict)
      (w w' : World) (tr : list event) :
  run_validators arguments args kwargs w = (tr, w', Ok tt) ->
  dict_get kwargs "arguments" = None /\
  tr = expected_validator_calls arguments kwargs.
Proof.
  unfold run_validators.
  destruct (dict_get kwargs "arguments"); [intro Hrun; discriminate Hrun|].
  intro Hrun. split; [reflexivity|].
  revert Hrun. apply for_each_trace.
  intros entry w0 tr0 w0' _. apply validate_argument_trace.
Qed.

Lemma run_validators_no_mutate (arguments : dict) (args : list value)
      (kwargs : dict) (w : World) :
  existsb is_mutate (trace_of (run_validators arguments args kwargs w)) = false.
Proof.
  unfold run_validators.
  destruct (dict_get kwargs "arguments"); [reflexivity|].
  apply for_each_no_mutate. intros entry w0. apply validate_argument_no_mutate.
Qed.

Lemma run_validators_fails (arguments : dict) (args : list value) (kwargs : dict)
      (name : string) (argument : value) (w : World) :
  In (name, argument) arguments ->
  unreadable kwargs name = true ->
  exists e, outcome_of (run_validators arguments args kwargs w) = Raise e.
Proof.
  intros Hin Hbad. unfold run_validators.
  destruct (dict_get kwargs "arguments"); [eexists; reflexivity|].
  apply (for_each_fails arguments _ (name, argument) Hin).
  intro w0. rewrite validate_argument_unreadable by exact Hbad.
  eexists. reflexivity.
Qed.

(** The resolver logs the validators' calls and then, when they all
    returned, the call of [mutate], whose outcome is its own. *)
Lemma resolver_unfold (arguments : dict) (mutate : value) (args : list value)
      (kwargs : dict) (w : World) :
  resolver arguments mutate args kwargs w =
  match run_validators arguments args kwargs w with
  | (tr, w1, Ok _) =>
      (tr ++ [EMutate (get_unbound_function mutate) args kwargs],
       fst (call (get_unbound_function mutate) args kwargs w1),
       snd (call (get_unbound_function mutate) args kwargs w1))
  | (tr, w1, Raise e) => (tr, w1, Raise e)
  end.
Proof.
  unfold resolver, bind, invoke.
  destruct (run_validators arguments args kwargs w) as [[tr w1] [[]|e]];
    [|reflexivity].
  destruct (call (get_unbound_function mutate) args kwargs w1) as [w2 r].
  reflexivity.
Qed.

(** A scalar handed to a declared argument stops the resolver at line 20,
    before any call. *)
Lemma resolver_rejects_scalar (name : string) (argument mutate : value)
      (args : list value) (s : string) (w : World) :
  resolver [(name, argument)] mutate args [(name, VStr s)] w
  = ([], w, Raise (match String.eqb name "arguments" with
                   | true =>
                       TypeError "run_validators() got multiple values for argument 'arguments'"
                   | false => AttributeError "keys"
                   end)).
Proof.
  rewrite resolver_unfold. unfold run_validators.
  cbn [dict_get]. destruct (String.eqb name "arguments"); [reflexivity|].
  cbn [for_each]. unfold bind.
  rewrite validate_argument_unreadable.
  - unfold unreadable_error. cbn [dict_get fst]. rewrite String.eqb_refl.
    reflexivity.
  - unfold unreadable. cbn [dict_get fst]. rewrite String.eqb_refl.
    reflexivity.
Qed.

End ResolverFacts.

Section ResolverCompletes.
Context {H : Host}.



End ResolverCompletes.



(** C8 (as the code has it): the field built for the [CreatePerson] of the
    docstring has [CreatePerson] as its type, the fields [ok] and [person]
    and the argument [name]; its resolver, invoked with [name="A"], raises
    [AttributeError] at line 20 and makes no call: [mutate] does not run. *)
Theorem C8_docstring_example_resolver_raises :
  exists m,
    init_subclass_with_meta CreatePerson [] VNone VNone None None = ([], Ok m) /\
    fd_type (Field m VNone VNone VNone (VBool false)) = VClass CreatePerson /\
    option_keys (meta_fields m) = ["ok"; "person"] /\
    option_keys (fd_args (Field m VNone VNone VNone (VBool false))) = ["name"] /\
    call_resolver (fd_resolver (Field m VNone VNone VNone (VBool false)))
                  [VNone; VNone] [("name", VStr "A")] 0
    = ([], 0, Raise (AttributeError "keys")).
Proof.
  eexists. split; [reflexivity|].
  split; [reflexivity|]. split; [reflexivity|]. split; [reflexivity|].
  cbn [call_resolver fd_resolver Field meta_resolver].
  exact (@resolver_rejects_scalar example_host
           "name" String_ (VFunc 0) [VNone; VNone] "A" 0).
Qed.

(** C9, amended: when a declared argument cannot be read from the payload
    (its name is absent, or its value has no [keys()]) the resolver raises
    and [mutate] is not called; when the validators of the arguments
    declared before the first such argument have returned, the error is the
    [KeyError] or [AttributeError] of that argument. *)
Theorem C9_unreadable_argument_stops_resolver
        {H : Host} (arguments : dict) (mutate : value)
        (args : list value) (kwargs : dict)
        (name : string) (argument : value) (w : World) :
  In (name, argument) arguments ->
  unreadable kwargs name = true ->
  (exists e, outcome_of (resolver arguments mutate args kwargs w) = Raise e) /\
  existsb is_mutate (trace_of (resolver arguments mutate args kwargs w)) = false /\
  (forall pre post tr1 w1,
      arguments = pre ++ (name, argument) :: post ->
      run_validators pre args kwargs w = (tr1, w1, Ok tt) ->
      resolver arguments mutate args kwargs w
      = (tr1, w1, Raise (unreadable_error kwargs name))).
Proof.
  intros Hin Hbad.
  pose proof (run_validators_fails arguments args kwargs name argument w Hin Hbad)
    as [e He].
  pose proof (run_validators_no_mutate arguments args kwargs w) as Hno.
  split; [|split].
  - rewrite resolver_unfold.
    destruct (run_validators arguments args kwargs w) as [[tr w1] [[]|e']];
      [discriminate He|].
    exists e'. reflexivity.
  - rewrite resolver_unfold.
    destruct (run_validators arguments args kwargs w) as [[tr w1] [[]|e']];
      [discriminate He|].
    exact Hno.
  - intros pre post tr1 w1 -> Hpre.
    rewrite resolver_unfold.
    destruct (run_validators_trace _ _ _ _ _ _ Hpre) as [Hkw _].
    unfold run_validators in *. rewrite Hkw in *.
    rewrite for_each_app. unfold bind at 1. rewrite Hpre.
    cbn [for_each]. unfold bind.
    rewrite validate_argument_unreadable by exact Hbad.
    cbn [fst]. rewrite app_nil_r. reflexivity.
Qed.

(** [user] is supplied and validated; [other] is absent. *)
Lemma C9_witness :
  resolver [("user", UserInput); ("other", UserInput)] (VFunc 0) []
           [("user", VDict [("email", VStr "a@b")])] 0
  = ([EValidator (VFunc 1) (VStr "a@b")], 1, Raise (KeyError "other")).
Proof.
  exact (proj2 (proj2 (C9_unreadable_argument_stops_resolver
                  [("user", UserInput); ("other", UserInput)] (VFunc 0) []
                  [("user", VDict [("email", VStr "a@b")])]
                  "other" UserInput 0
                  (or_intror (or_introl eq_refl)) eq_refl))
               [("user", UserInput)] [] [EValidator (VFunc 1) (VStr "a@b")] 1
               eq_refl eq_refl).
Defined.

(** C9 as stated fails: [other] is absent from the payload, and the error
    raised is the one of the validator of [user], which runs first. *)
Lemma C9_counterexample :
  unreadable [("user", VDict [("email", VStr "a@b")])] "other" = true /\
  resolver [("user", StrictInput); ("other", UserInput)] (VFunc 0) []
           [("user", VDict [("email", VStr "a@b")])] 0
  = ([EValidator (VFunc 2) (VStr "a@b")], 1, Raise (UserError "ValueError")).
Proof. split; reflexivity. Qed.

(** * Further properties of the builder *)

Section DictOrder.

(** Assigning to a key that is there keeps the keys and their order;
    assigning to a new key appends it. *)
Lemma dict_set_keys_order (d : dict) (k : string) (v : value) :
  dict_keys (dict_set d k v)
  = match dict_get d k with
    | Some _ => dict_keys d
    | None => dict_keys d ++ [k]
    end.
Proof.
  induction d as [|[k0 v0] d IH]; simpl.
  - reflexivity.
  - destruct (String.eqb k0 k) eqn:E; simpl.
    + apply String.eqb_eq in E. subst k0. reflexivity.
    + rewrite IH. destruct (dict_get d k); reflexivity.
Qed.

Lemma dict_get_none_notin (d : dict) (k : string) :
  dict_get d k = None -> ~ In k (dict_keys d).
Proof.
  intros Hnone Hin. destruct (dict_get_in d k Hin) as [v Hv]. congruence.
Qed.

(** [update] keeps the keys it finds, in their order, and appends the ones
    it adds. *)
Lemma dict_update_keys_order (d other : dict) :
  exists added,
    dict_keys (dict_update d other) = dict_keys d ++ added /\
    forall k, In k added -> ~ In k (dict_keys d).
Proof.
  revert d. unfold dict_update.
  induction other as [|[k v] other IH]; intro d; simpl.
  - exists []. rewrite app_nil_r. split; [reflexivity|intros k []].
  - destruct (IH (dict_set d k v)) as [added [Hkeys Hnew]].
    rewrite Hkeys, dict_set_keys_order in *.
    destruct (dict_get d k) eqn:E.
    + exists added. auto.
    + exists (k :: added). rewrite <- app_assoc. split; [reflexivity|].
      intros k' [<-|Hin].
      * apply dict_get_none_notin, E.
      * intro Hd. apply (Hnew k' Hin). apply in_or_app. auto.
Qed.

End DictOrder.

Section BuilderLaws.
Context {H : Host}.

Lemma merge_interfaces_ok_iff (cls : klass) (interfaces : list value) (start : dict) :
  (exists fields, merge_interfaces cls interfaces start = Ok fields) <->
  forallb completes_interface_loop interfaces = true.
Proof.
  split; [|apply merge_interfaces_valid].
  revert start. induction interfaces as [|i rest IH]; simpl; intros start [f Hf].
  - reflexivity.
  - destruct i as [| | | | | | | |c]; try discriminate.
    simpl. destruct (is_interface c); [|discriminate].
    destruct (k_meta c); [|discriminate].
    simpl. apply (IH _ (ex_intro _ f Hf)).
Qed.

Lemma merge_interfaces_get (cls : klass) (interfaces : list value)
      (start fields : dict) (k : string) :
  merge_interfaces cls interfaces start = Ok fields ->
  dict_get fields k =
  match last_interface_field interfaces k with
  | Some v => Some v
  | None => dict_get start k
  end.
Proof.
  revert start. induction interfaces as [|i rest IH]; simpl; intros start Hm.
  - inversion Hm. reflexivity.
  - destruct i as [| | | | | | | |c]; try discriminate.
    destruct (is_interface c); [|discriminate].
    destruct (k_meta c) as [interface_fields|] eqn:Em; [|discriminate].
    rewrite (IH _ Hm), dict_get_update. unfold k_meta_fields. rewrite Em.
    destruct (last_interface_field rest k); [reflexivity|].
    destruct (dict_get_last interface_fields k); reflexivity.
Qed.

Lemma merge_interfaces_nodup (cls : klass) (interfaces : list value)
      (start fields : dict) :
  NoDup (dict_keys start) ->
  merge_interfaces cls interfaces start = Ok fields ->
  NoDup (dict_keys fields).
Proof.
  revert start. induction interfaces as [|i rest IH]; simpl; intros start ND Hm.
  - inversion Hm; subst. exact ND.
  - destruct i as [| | | | | | | |c]; try discriminate.
    destruct (is_interface c); [|discriminate].
    destruct (k_meta c); [|discriminate].
    apply (IH _ (dict_update_nodup _ _ ND) Hm).
Qed.

(** Reading [_meta.fields] after lines 134-137. *)
Lemma store_fields_lookup (old : option dict) (fields : dict) (k : string) :
  NoDup (dict_keys fields) ->
  dict_get (store_fields old fields) k =
  match dict_get fields k with
  | Some v => Some v
  | None => option_get old k
  end.
Proof.
  intros ND. destruct old as [[|item items]|]; simpl;
    try (destruct (dict_get fields k); reflexivity).
  rewrite dict_get_update, (dict_get_last_nodup _ _ ND). reflexivity.
Qed.

Lemma store_fields_keys_order (old : option dict) (fields : dict) :
  match old with
  | Some (item :: items) =>
      exists added,
        dict_keys (store_fields old fields) = dict_keys (item :: items) ++ added /\
        forall k, In k added -> ~ In k (dict_keys (item :: items))
  | _ => store_fields old fields = fields
  end.
Proof.
  destruct old as [[|item items]|]; try reflexivity.
  apply dict_update_keys_order.
Qed.

Lemma resolve_arguments_warnings (cls : klass) (arguments : option dict) :
  fst (resolve_arguments cls arguments)
  = if negb (dict_truthy arguments)
       && negb (truthy (getattr cls "Arguments"))
       && truthy (getattr cls "Input")
    then [deprecation_message (k_name cls)] else [].
Proof.
  unfold resolve_arguments.
  destruct arguments as [[|item items]|]; simpl; try reflexivity;
    destruct (truthy (getattr cls "Arguments")) eqn:HA; simpl;
    try rewrite HA; try reflexivity;
    destruct (truthy (getattr cls "Input")) eqn:HI; simpl;
    rewrite HI; reflexivity.
Qed.

End BuilderLaws.

(** X1: lines 88-142 reach the call of the parent hook exactly when every
    entry of [interfaces] is a subclass of [Interface] whose [_meta] is
    there and the definition supplies a resolver or has a [mutate]; the
    outcome of construction is then the one of the parent hook on the
    [_meta] built, and otherwise the exception of lines 88-142, the parent
    hook not being called. *)
Theorem hook_reaches_parent_iff
        {H : Host} (cls : klass) (interfaces : list value)
        (resolver output : value) (arguments : option dict)
        (_meta : option MutationOptions) (options : dict) :
  ((exists built,
       snd (init_subclass_with_meta cls interfaces resolver output arguments _meta)
       = Ok built) <->
   forallb completes_interface_loop interfaces = true /\
   (truthy resolver = true \/ truthy (getattr cls "mutate") = true)) /\
  snd (Mutation_init_subclass_with_meta cls interfaces resolver output
                                        arguments _meta options)
  = match snd (init_subclass_with_meta cls interfaces resolver output
                                       arguments _meta) with
    | Ok built => parent_init_subclass_with_meta cls built options
    | Raise e => Raise e
    end.
Proof.
  split.
  - unfold init_subclass_with_meta, resolve_resolver. split.
    + intros [m Hm].
      destruct (merge_interfaces cls interfaces []) as [ifields|e] eqn:Em;
        [|discriminate Hm].
      split; [apply (merge_interfaces_ok_iff cls interfaces []); eauto|].
      destruct (truthy resolver); [auto|].
      destruct (truthy (getattr cls "mutate")); [auto|].
      exfalso. revert Hm.
      destruct (truthy (py_or output (getattr cls "Output")));
        destruct (resolve_arguments cls arguments); discriminate.
    + intros [Hi Hr].
      destruct (merge_interfaces_valid cls interfaces [] Hi) as [ifields ->].
      destruct (truthy (py_or output (getattr cls "Output")));
        destruct (resolve_arguments cls arguments);
        destruct (truthy resolver); simpl; eauto;
        destruct Hr as [Hr|Hr]; try discriminate; rewrite Hr; simpl; eauto.
  - unfold Mutation_init_subclass_with_meta.
    destruct (init_subclass_with_meta cls interfaces resolver output arguments _meta)
      as [ws [built|e]]; reflexivity.
Qed.

(** X2: lines 88-142 emit at most one warning, the deprecation message
    with the name of the class, and emit it exactly when the interface
    loop completes, no [Meta] arguments are given, the definition has no
    [Arguments] and has an [Input]; a missing [mutate] detected afterwards
    does not take the warning back, and an interface the loop does not get
    past prevents it. *)
Theorem init_warnings
        {H : Host} (cls : klass) (interfaces : list value)
        (resolver output : value) (arguments : option dict)
        (_meta : option MutationOptions) :
  fst (init_subclass_with_meta cls interfaces resolver output arguments _meta)
  = if forallb completes_interface_loop interfaces
       && (negb (dict_truthy arguments)
           && negb (truthy (getattr cls "Arguments"))
           && truthy (getattr cls "Input"))
    then [deprecation_message (k_name cls)] else [].
Proof.
  unfold init_subclass_with_meta.
  destruct (forallb completes_interface_loop interfaces) eqn:Ei; cbn [andb].
  - rewrite <- resolve_arguments_warnings.
    destruct (merge_interfaces_valid cls interfaces [] Ei) as [ifields ->].
    destruct (truthy (py_or output (getattr cls "Output")));
      destruct (resolve_arguments cls arguments) as [ws a];
      destruct (resolve_resolver cls resolver a); reflexivity.
  - destruct (merge_interfaces cls interfaces []) as [ifields|e] eqn:Em;
      [|reflexivity].
    assert (forallb completes_interface_loop interfaces = true) as Hi
        by (apply (merge_interfaces_ok_iff cls interfaces []); eauto).
    congruence.
Qed.

(** X3: an empty [Meta] arguments dict counts as none given; a non-empty
    one is used as it is, with no warning, and it is the dict the generated
    resolver validates against. *)
Theorem explicit_arguments_used
        {H : Host} (cls : klass) (interfaces : list value)
        (resolver output : value) (_meta : option MutationOptions) :
  init_subclass_with_meta cls interfaces resolver output (Some []) _meta
  = init_subclass_with_meta cls interfaces resolver output None _meta /\
  forall item items warnings m,
    init_subclass_with_meta cls interfaces resolver output
                            (Some (item :: items)) _meta
    = (warnings, Ok m) ->
    warnings = [] /\
    meta_arguments m = Some (item :: items) /\
    (truthy resolver = false ->
     meta_resolver m = ValidatingResolver (item :: items) (getattr cls "mutate")).
Proof.
  split; [reflexivity|].
  intros item items warnings m Hinit.
  destruct (init_subclass_with_meta_ok _ _ _ _ _ _ _ _ Hinit)
    as [ifields [_ [Hw [Hr [_ [_ [Ha _]]]]]]].
  simpl in Hw, Hr, Ha. split; [exact Hw|]. split; [exact Ha|].
  intro Hno. unfold resolve_resolver in Hr. rewrite Hno in Hr.
  destruct (truthy (getattr cls "mutate")); [|discriminate Hr].
  inversion Hr. reflexivity.
Qed.

(** [BothMutation] with [Meta] arguments: neither inner class is used. *)
Lemma explicit_arguments_used_witness :
  exists m,
    init_subclass_with_meta BothMutation [] VNone VNone (Some [("id", ID_)]) None
    = ([], Ok m) /\
    meta_arguments m = Some [("id", ID_)] /\
    meta_resolver m = ValidatingResolver [("id", ID_)] (VFunc 0).
Proof.
  eexists. split; [reflexivity|].
  destruct (proj2 (explicit_arguments_used BothMutation [] VNone VNone None)
                  ("id", ID_) [] [] _ eq_refl) as [_ [Ha Hr]].
  split; [exact Ha | exact (Hr eq_refl)].
Defined.

(** X4: with an explicit output type, and a parent hook that merges the
    scraped fields, a name in the [_meta.fields] of the finished class
    reads the field scraped from the most derived class that declares it,
    otherwise the field of the last declared interface that has it, and
    otherwise the field the [_meta] handed in had under it. *)
Theorem explicit_output_field_lookup
        {H : Host} (cls : klass) (interfaces : list value)
        (resolver output : value) (arguments : option dict)
        (_meta : option MutationOptions) (options : dict)
        (warnings : list string) (m : MutationOptions) (k : string) :
  parent_updates_fields ->
  truthy (py_or output (getattr cls "Output")) = true ->
  Mutation_init_subclass_with_meta cls interfaces resolver output arguments
                                   _meta options
  = (warnings, Ok m) ->
  option_get (meta_fields m) k =
  match declared_field (k_mro cls) k with
  | Some v => Some v
  | None =>
      match last_interface_field interfaces k with
      | Some v => Some v
      | None => option_get (prior_fields _meta) k
      end
  end.
Proof.
  intros Hparent Hout Hhook.
  destruct (Mutation_init_subclass_with_meta_ok _ _ _ _ _ _ _ _ _ Hhook)
    as [built [Hinit Hp]].
  destruct (Hparent _ _ _ _ Hp) as [Hf _].
  destruct (init_subclass_with_meta_ok _ _ _ _ _ _ _ _ Hinit)
    as [ifields [Hm [_ [_ [_ [Hbf _]]]]]].
  rewrite Hout in Hbf. rewrite Hf, Hbf. cbn [option_get].
  rewrite store_fields_lookup by apply collect_fields_nodup.
  rewrite collect_fields_get.
  destruct (declared_field (k_mro cls) k); [reflexivity|]. cbn [option_get].
  rewrite store_fields_lookup
    by (apply (merge_interfaces_nodup cls interfaces [] ifields);
        [constructor | exact Hm]).
  rewrite (merge_interfaces_get _ _ _ _ k Hm). cbn [dict_get].
  destruct (last_interface_field interfaces k); reflexivity.
Qed.

(** [Node] and [Timestamped] both have [id], and [Timestamped] is declared
    last; [ok] is on the [_meta] handed in; [extra] is a class attribute. *)
Lemma explicit_output_field_lookup_witness :
  exists m,
    Mutation_init_subclass_with_meta
      OutputMutation [VClass Node; VClass Timestamped]
      VNone VNone None (Some given_meta) []
    = ([], Ok m) /\
    option_get (meta_fields m) "id" = Some DateTime_ /\
    option_get (meta_fields m) "ok" = Some ID_ /\
    option_get (meta_fields m) "extra" = Some Boolean_.
Proof.
  eexists. split; [reflexivity|]. split; [|split].
  - exact (explicit_output_field_lookup
             OutputMutation [VClass Node; VClass Timestamped] VNone VNone None
             (Some given_meta) [] [] _ "id"
             example_parent_updates_fields eq_refl eq_refl).
  - exact (explicit_output_field_lookup
             OutputMutation [VClass Node; VClass Timestamped] VNone VNone None
             (Some given_meta) [] [] _ "ok"
             example_parent_updates_fields eq_refl eq_refl).
  - exact (explicit_output_field_lookup
             OutputMutation [VClass Node; VClass Timestamped] VNone VNone None
             (Some given_meta) [] [] _ "extra"
             example_parent_updates_fields eq_refl eq_refl).
Defined.

(** X5: with an explicit output type, every field name of every declared
    interface is among the names of [_meta.fields], whatever the [_meta]
    handed in held. *)
Theorem interface_fields_recorded
        {H : Host} (cls : klass) (interfaces : list value)
        (resolver output : value) (arguments : option dict)
        (_meta : option MutationOptions)
        (warnings : list string) (m : MutationOptions) (c : klass) (k : string) :
  truthy (py_or output (getattr cls "Output")) = true ->
  init_subclass_with_meta cls interfaces resolver output arguments _meta
  = (warnings, Ok m) ->
  In (VClass c) interfaces ->
  In k (dict_keys (k_meta_fields c)) ->
  In k (option_keys (meta_fields m)).
Proof. apply interface_fields_kept_with_output. Qed.

(** [OutputMutation] declaring [Node] and [Timestamped]. *)
Lemma interface_fields_recorded_witness :
  exists m,
    init_subclass_with_meta OutputMutation [VClass Node; VClass Timestamped]
                            VNone VNone None None
    = ([], Ok m) /\
    In "created" (option_keys (meta_fields m)).
Proof.
  eexists. split; [reflexivity|].
  apply (interface_fields_recorded
           OutputMutation [VClass Node; VClass Timestamped] VNone VNone None None
           [] _ Timestamped "created" eq_refl eq_refl).
  - simpl. auto.
  - simpl. auto.
Defined.

(** X6: with a parent hook that merges the scraped fields, the fields of a
    [_meta] handed to the hook keep their names and their order on the
    finished class; the names added by the hook and by its parent come
    after them. *)
Theorem given_meta_fields_kept
        {H : Host} (cls : klass) (interfaces : list value)
        (resolver output : value) (arguments : option dict)
        (m0 : MutationOptions) (options : dict)
        (warnings : list string) (m : MutationOptions) :
  parent_updates_fields ->
  Mutation_init_subclass_with_meta cls interfaces resolver output arguments
                                   (Some m0) options
  = (warnings, Ok m) ->
  exists added,
    option_keys (meta_fields m) = option_keys (meta_fields m0) ++ added.
Proof.
  intros Hparent Hhook.
  destruct (Mutation_init_subclass_with_meta_ok _ _ _ _ _ _ _ _ _ Hhook)
    as [built [Hinit Hp]].
  destruct (Hparent _ _ _ _ Hp) as [Hf _].
  destruct (init_subclass_with_meta_ok _ _ _ _ _ _ _ _ Hinit)
    as [ifields [_ [_ [_ [_ [Hbf _]]]]]].
  simpl prior_fields in Hbf.
  assert (forall old new, exists added,
             option_keys (Some (store_fields old new)) = option_keys old ++ added)
    as Hstore.
  { intros old new. pose proof (store_fields_keys_order old new) as Hord.
    cbn [option_keys].
    destruct old as [[|item items]|].
    - rewrite Hord. simpl. eauto.
    - destruct Hord as [added [Hk _]]. exists added. exact Hk.
    - rewrite Hord. simpl. eauto. }
  rewrite Hf, Hbf.
  destruct (Hstore (meta_fields m0)
                   (if truthy (py_or output (getattr cls "Output"))
                    then ifields else collect_fields cls)) as [a1 Ha1].
  destruct (Hstore (Some (store_fields (meta_fields m0)
                            (if truthy (py_or output (getattr cls "Output"))
                             then ifields else collect_fields cls)))
                   (collect_fields cls)) as [a2 Ha2].
  exists (a1 ++ a2). rewrite Ha2, Ha1, app_assoc. reflexivity.
Qed.

(** [CreatePerson] built on [given_meta]: [ok] stays first, with the field
    of the class, [clientMutationId] second, and [person] is appended. *)
Lemma given_meta_fields_kept_witness :
  exists m,
    Mutation_init_subclass_with_meta
      CreatePerson [] VNone VNone None (Some given_meta) []
    = ([], Ok m) /\
    meta_fields m
    = Some [("ok", Boolean_); ("clientMutationId", String_);
            ("person", Person_field)] /\
    exists added,
      option_keys (meta_fields m) = option_keys (meta_fields given_meta) ++ added.
Proof.
  eexists. split; [reflexivity|]. split; [reflexivity|].
  exact (given_meta_fields_kept CreatePerson [] VNone VNone None given_meta []
           [] _ example_parent_updates_fields eq_refl).
Defined.

(** X7: the scraped fields of a class whose [__mro__] is its own entry
    followed by the [__mro__] of a base are the base's field names, in the
    base's order, followed by the names the class adds. *)
Theorem subclass_field_order
        {H : Host} (cls base : klass) (entry : string * dict) :
  k_mro cls = entry :: k_mro base ->
  exists added,
    dict_keys (collect_fields cls) = dict_keys (collect_fields base) ++ added /\
    forall k, In k added -> ~ In k (dict_keys (collect_fields base)).
Proof.
  intro Hmro. unfold collect_fields. rewrite Hmro. simpl rev.
  rewrite fold_left_app. simpl fold_left.
  apply dict_update_keys_order.
Qed.

(** [DerivedMutation] redeclares [ok] and adds nothing. *)
Lemma subclass_field_order_witness :
  exists added,
    dict_keys (collect_fields DerivedMutation)
    = dict_keys (collect_fields CreatePerson) ++ added /\
    forall k, In k added -> ~ In k (dict_keys (collect_fields CreatePerson)).
Proof.
  exact (subclass_field_order DerivedMutation CreatePerson
           ("DerivedMutation", [("ok", ID_)]) eq_refl).
Defined.

(** X8: a resolver the definition supplies is stored as it is, whether or
    not there is a [mutate]; otherwise the stored resolver is the closure
    over the class's [mutate] and over the very dict stored as the field's
    arguments. *)
Theorem stored_resolver
        {H : Host} (cls : klass) (interfaces : list value)
        (resolver output : value) (arguments : option dict)
        (_meta : option MutationOptions)
        (warnings : list string) (m : MutationOptions) :
  init_subclass_with_meta cls interfaces resolver output arguments _meta
  = (warnings, Ok m) ->
  (truthy resolver = true -> meta_resolver m = UserResolver resolver) /\
  (truthy resolver = false ->
   truthy (getattr cls "mutate") = true /\
   exists a,
     meta_arguments m = Some a /\
     meta_resolver m = ValidatingResolver a (getattr cls "mutate")).
Proof.
  intro Hinit.
  destruct (init_subclass_with_meta_ok _ _ _ _ _ _ _ _ Hinit)
    as [ifields [_ [_ [Hr [_ [_ [Ha _]]]]]]].
  unfold resolve_resolver in Hr. split; intro Ht; rewrite Ht in Hr.
  - inversion Hr. reflexivity.
  - destruct (truthy (getattr cls "mutate")); [|discriminate Hr].
    split; [reflexivity|]. inversion Hr. eauto.
Qed.

(** [BareMutation] has no [mutate] and is given a resolver; [CreatePerson]
    has a [mutate] and is given none. *)
Lemma stored_resolver_witness :
  (exists m,
      init_subclass_with_meta BareMutation [] (VFunc 5) VNone None None
      = ([], Ok m) /\
      meta_resolver m = UserResolver (VFunc 5)) /\
  (exists m,
      init_subclass_with_meta CreatePerson [] VNone VNone None None = ([], Ok m) /\
      exists a,
        meta_arguments m = Some a /\
        meta_resolver m = ValidatingResolver a (VFunc 0)).
Proof.
  split; (eexists; split; [reflexivity|]).
  - exact (proj1 (stored_resolver BareMutation [] (VFunc 5) VNone None None [] _
                                  eq_refl) eq_refl).
  - exact (proj2 (proj2 (stored_resolver CreatePerson [] VNone VNone None None
                                         [] _ eq_refl) eq_refl)).
Defined.

(** * Further properties of the generated resolver *)

Section ResolverLaws.
Context {H : Host}.

(** A loop has logged, whenever it stops, a prefix of what its rounds log
    when they complete. *)
Lemma for_each_prefix {A} (xs : list A) (body : A -> M unit)
      (logged : A -> list event) :
  (forall x w, In x xs ->
               exists rest, logged x = trace_of (body x w) ++ rest) ->
  (forall x w tr w', In x xs -> body x w = (tr, w', Ok tt) -> tr = logged x) ->
  forall w, exists rest,
    flat_map logged xs = trace_of (for_each xs body w) ++ rest.
Proof.
  induction xs as [|x xs IH]; intros Hpre Hok w; simpl.
  - exists []. reflexivity.
  - unfold bind.
    destruct (Hpre x w (or_introl eq_refl)) as [rest1 Hrest1].
    destruct (body x w) as [[tr1 w1] [[]|e]] eqn:E1.
    + destruct (IH (fun y w0 Hy => Hpre y w0 (or_intror Hy))
                   (fun y w0 t w0' Hy => Hok y w0 t w0' (or_intror Hy)) w1)
        as [rest2 Hrest2].
      destruct (for_each xs body w1) as [[tr2 w2] r2].
      unfold trace_of in *. cbn [fst] in *.
      rewrite (Hok x w tr1 w1 (or_introl eq_refl) E1) in *.
      exists rest2. rewrite Hrest2, app_assoc. reflexivity.
    + unfold trace_of in *. cbn [fst] in *.
      exists (rest1 ++ flat_map logged xs).
      rewrite Hrest1, app_assoc. reflexivity.
Qed.

Lemma validate_input_prefix (argument : value) (d : dict) (k : string) (w : World) :
  exists rest,
    match attribute argument ("validate_" ++ k)%string, dict_get d k with
    | Some f, Some x => [EValidator f x]
    | _, _ => []
    end
    = trace_of (validate_input argument (VDict d) k w) ++ rest.
Proof.
  unfold validate_input, hasattr.
  generalize ("validate_" ++ k)%string as name. intro name.
  destruct (attribute argument name) as [f|] eqn:Ea;
    [|exists []; reflexivity].
  destruct (getattribute argument name) as [g|e] eqn:Eg;
    [rewrite bind_lift_ok | eexists; reflexivity].
  assert (g = f) as ->.
  { destruct argument as [| | | | | | |attrs|c]; try discriminate.
    unfold attribute in Ea. unfold getattribute in Eg. rewrite Ea in Eg.
    inversion Eg. reflexivity. }
  unfold item_of, subscript.
  destruct (dict_get d k) as [x|]; [rewrite bind_lift_ok | exists []; reflexivity].
  unfold bind, invoke.
  destruct (call f [x] [] w) as [w1 [v|e]]; exists []; reflexivity.
Qed.

Lemma validate_argument_prefix (kwargs : dict) (entry : string * value) (w : World) :
  exists rest,
    match dict_get kwargs (fst entry) with
    | Some arg_value => expected_calls_of (snd entry) arg_value
    | None => []
    end
    = trace_of (validate_argument kwargs entry w) ++ rest.
Proof.
  unfold validate_argument, subscript.
  destruct (dict_get kwargs (fst entry)) as [arg_value|];
    [rewrite bind_lift_ok | exists []; reflexivity].
  destruct arg_value as [| | | | |d| | |]; try (eexists; reflexivity).
  cbn [keys_of]. rewrite bind_lift_ok. unfold expected_calls_of.
  apply for_each_prefix.
  - intros k w0 _. apply validate_input_prefix.
  - intros k w0 tr w0' _. apply validate_input_trace.
Qed.

Lemma run_validators_prefix (arguments : dict) (args : list value)
      (kwargs : dict) (w : World) :
  exists rest,
    expected_validator_calls arguments kwargs
    = trace_of (run_validators arguments args kwargs w) ++ rest.
Proof.
  unfold run_validators.
  destruct (dict_get kwargs "arguments"); [eexists; reflexivity|].
  unfold expected_validator_calls. apply for_each_prefix.
  - intros entry w0 _. apply validate_argument_prefix.
  - intros entry w0 tr w0' _. apply validate_argument_trace.
Qed.

(** Two loop bodies that agree on the items give the same loop. *)
Lemma for_each_ext {A} (xs : list A) (body body' : A -> M unit) :
  (forall x w, In x xs -> body x w = body' x w) ->
  forall w, for_each xs body w = for_each xs body' w.
Proof.
  induction xs as [|x xs IH]; intros Hext w; simpl.
  - reflexivity.
  - unfold bind. rewrite (Hext x w (or_introl eq_refl)).
    destruct (body' x w) as [[tr1 w1] [[]|e]]; [|reflexivity].
    rewrite (IH (fun y w0 Hy => Hext y w0 (or_intror Hy)) w1). reflexivity.
Qed.

(** A loop whose rounds do nothing does nothing. *)
Lemma for_each_silent {A} (xs : list A) (body : A -> M unit) :
  (forall x w, In x xs -> body x w = ([], w, Ok tt)) ->
  forall w, for_each xs body w = ([], w, Ok tt).
Proof.
  induction xs as [|x xs IH]; intros Hbody w; simpl.
  - reflexivity.
  - unfold bind. rewrite (Hbody x w (or_introl eq_refl)).
    rewrite (IH (fun y w0 Hy => Hbody y w0 (or_intror Hy)) w). reflexivity.
Qed.

Lemma dict_get_snoc_other (d : dict) (k k0 : string) (v0 : value) :
  k <> k0 -> dict_get (d ++ [(k0, v0)]) k = dict_get d k.
Proof.
  intro Hne. induction d as [|[k1 v1] d IH]; simpl.
  - destruct (String.eqb k0 k) eqn:E; [|reflexivity].
    apply String.eqb_eq in E. congruence.
  - rewrite IH. reflexivity.
Qed.

End ResolverLaws.

(** X9: whatever the payload and however the run ends, the calls a
    generated resolver makes are an initial part of the validator calls the
    declared arguments and the payload determine, followed by the call of
    [mutate]: no other object is called, none twice, none out of order. *)
Theorem resolver_calls_in_order
        {H : Host} (arguments : dict) (mutate : value)
        (args : list value) (kwargs : dict) (w : World) :
  exists rest,
    expected_validator_calls arguments kwargs
    ++ [EMutate (get_unbound_function mutate) args kwargs]
    = trace_of (resolver arguments mutate args kwargs w) ++ rest.
Proof.
  rewrite resolver_unfold.
  destruct (run_validators_prefix arguments args kwargs w) as [rest Hrest].
  destruct (run_validators arguments args kwargs w) as [[tr w1] [[]|e]] eqn:E.
  - destruct (run_validators_trace _ _ _ _ _ _ E) as [_ ->].
    exists []. unfold trace_of. cbn [fst]. rewrite app_nil_r. reflexivity.
  - unfold trace_of in *. cbn [fst] in *.
    exists (rest ++ [EMutate (get_unbound_function mutate) args kwargs]).
    rewrite Hrest, app_assoc. reflexivity.
Qed.

(** X10: a payload with a key [arguments] cannot be resolved: the call of
    [run_validators] at line 131 passes the payload on as keywords, the
    name collides with its first parameter, and the resolver raises
    [TypeError] without calling anything, whatever is declared. *)
Theorem payload_key_arguments_rejected
        {H : Host} (arguments : dict) (mutate : value)
        (args : list value) (kwargs : dict) (v : value) (w : World) :
  dict_get kwargs "arguments" = Some v ->
  resolver arguments mutate args kwargs w
  = ([], w,
     Raise (TypeError
              "run_validators() got multiple values for argument 'arguments'")).
Proof.
  intro Hkw. rewrite resolver_unfold. unfold run_validators. rewrite Hkw.
  reflexivity.
Qed.

(** A mutation whose one argument is named [arguments]. *)
Lemma payload_key_arguments_rejected_witness :
  resolver [("arguments", PlainInput)] (VFunc 0) [VNone; VNone]
           [("arguments", VDict [("email", VStr "a@b")])] 0
  = ([], 0,
     Raise (TypeError
              "run_validators() got multiple values for argument 'arguments'")).
Proof.
  exact (payload_key_arguments_rejected (H := example_host)
           [("arguments", PlainInput)] (VFunc 0) [VNone; VNone]
           [("arguments", VDict [("email", VStr "a@b")])]
           (VDict [("email", VStr "a@b")]) 0 eq_refl).
Defined.

(** X11: when every declared argument is given a dict and no argument
    object has a validator for any of its keys, the resolver is [mutate]
    itself: one call, in the world as it was, with the positional and
    keyword arguments unchanged, and its outcome (value or exception)
    returned as it is. *)
Theorem resolver_without_validators
        {H : Host} (arguments : dict) (mutate : value)
        (args : list value) (kwargs : dict) (w : World) :
  dict_get kwargs "arguments" = None ->
  (forall name argument,
      In (name, argument) arguments ->
      exists d,
        dict_get kwargs name = Some (VDict d) /\
        forall k, In k (dict_keys d) ->
                  hasattr argument ("validate_" ++ k)%string = false) ->
  resolver arguments mutate args kwargs w
  = ([EMutate (get_unbound_function mutate) args kwargs],
     fst (call (get_unbound_function mutate) args kwargs w),
     snd (call (get_unbound_function mutate) args kwargs w)).
Proof.
  intros Hkw Hargs. rewrite resolver_unfold. unfold run_validators. rewrite Hkw.
  rewrite for_each_silent; [reflexivity|].
  intros [name argument] w0 Hin.
  destruct (Hargs name argument Hin) as [d [Hd Hno]].
  unfold validate_argument, subscript. cbn [fst snd]. rewrite Hd.
  rewrite bind_lift_ok. cbn [keys_of]. rewrite bind_lift_ok.
  apply for_each_silent. intros k w1 Hk.
  apply validate_input_skips, Hno, Hk.
Qed.

(** An input object without validators, and a mutation without arguments. *)
Lemma resolver_without_validators_witness :
  resolver [("user", PlainInput)] (VFunc 0) [VNone; VNone]
           [("user", VDict [("email", VStr "a@b")])] 0
  = ([EMutate (VFunc 0) [VNone; VNone] [("user", VDict [("email", VStr "a@b")])]],
     1, Ok (VObj [("ok", VBool true)])) /\
  resolver [] (VFunc 0) [VNone; VNone] [] 0
  = ([EMutate (VFunc 0) [VNone; VNone] []], 1, Ok (VObj [("ok", VBool true)])).
Proof.
  split.
  - apply (resolver_without_validators (H := example_host)
             [("user", PlainInput)] (VFunc 0) [VNone; VNone]
             [("user", VDict [("email", VStr "a@b")])] 0 eq_refl).
    intros name argument [Heq|[]]. inversion Heq; subst.
    exists [("email", VStr "a@b")]. split; [reflexivity|].
    intros k [<-|[]]. reflexivity.
  - apply (resolver_without_validators (H := example_host)
             [] (VFunc 0) [VNone; VNone] [] 0 eq_refl).
    intros name argument [].
Defined.

(** X12: a payload entry under a name that is not declared (and is not
    [arguments]) is never looked at by the validators: adding it changes
    neither the calls they make nor how they end. *)
Theorem undeclared_payload_ignored
        {H : Host} (arguments : dict) (args : list value) (kwargs : dict)
        (k0 : string) (v0 : value) (w : World) :
  ~ In k0 (dict_keys arguments) ->
  k0 <> "arguments" ->
  run_validators arguments args (kwargs ++ [(k0, v0)]) w
  = run_validators arguments args kwargs w.
Proof.
  intros Hnot Hne. unfold run_validators.
  rewrite dict_get_snoc_other by congruence.
  destruct (dict_get kwargs "arguments"); [reflexivity|].
  apply for_each_ext. intros [name argument] w0 Hin.
  unfold validate_argument, subscript. cbn [fst snd].
  rewrite dict_get_snoc_other; [reflexivity|].
  intros ->. apply Hnot. unfold dict_keys.
  apply (in_map fst arguments (k0, argument) Hin).
Qed.

(** [user] is declared, [note] is not. *)
Lemma undeclared_payload_ignored_witness :
  run_validators [("user", UserInput)] []
                 ([("user", VDict [("email", VStr "a@b")])] ++ [("note", VInt 7)]) 0
  = run_validators [("user", UserInput)] []
                   [("user", VDict [("email", VStr "a@b")])] 0.
Proof.
  apply (undeclared_payload_ignored (H := example_host)
           [("user", UserInput)] [] [("user", VDict [("email", VStr "a@b")])]
           "note" (VInt 7) 0).
  - simpl. intros [Heq|[]]. discriminate Heq.
  - discriminate.
Defined.
